(** * speedtest-tracker-webhook: the webhook handler and the process lifecycle

    A shallow embedding of [main.go].  The Go packages the program calls
    ([strconv], [errors], [encoding/json], [net/http], the OpenTelemetry API)
    are modelled as far as [main.go] uses them; the functions of the
    [main] package ([webhookHandler], [run], [main]) are transcribed
    statement by statement.

    - a Go [string] is a [string] (a sequence of 8-bit characters), a
      [[]byte] is a [list byte];
    - a Go [int] is a [Z] (the program is built for 64-bit targets, and the
      only places where the width matters are the range checks of
      [strconv.ParseInt]);
    - a Go [float64] is a [spec_float] of the binary64 format;
    - a Go [error] is a value of the sum type [error]; the nil error is
      [None]. *)

From Stdlib Require Import ZArith List Bool Lia.
From Stdlib Require Import Strings.String Strings.Ascii Strings.Byte.
From Stdlib Require Import Floats.SpecFloat DecimalString DecimalPos DecimalZ.
Import ListNotations.
Local Open Scope string_scope.
Local Open Scope list_scope.
Local Open Scope Z_scope.

Set Warnings "-register-all".

(** ** Go values shared by the packages *)

(** The error values the program can meet.  [errorString] stands for
    [errors.New], [fmt.Errorf] and the errors of the libraries the program
    only passes on;  [joinError] is the value built by [errors.Join]. *)
Inductive error : Type :=
| errorString (msg : string)
| SyntaxError
| UnmarshalTypeError (value : string) (field : string)
| joinError (errs : list error).

Definition float64 : Type := spec_float.

(** The zero value of a [float64] variable. *)
Definition float64_zero : float64 := S754_zero false.

Definition byte_code (c : byte) : Z := Z.of_N (Byte.to_N c).

Definition byte_of_code (n : Z) : byte :=
  match Byte.of_N (Z.to_N n) with
  | Some b => b
  | None => x00
  end.

Definition in_range (c : byte) (lo hi : Z) : bool :=
  (lo <=? byte_code c) && (byte_code c <=? hi).

(** ** Package errors *)

Module errors.

(** [errors.Join(errs...)]: nil errors are discarded, the result is nil when
    none is left. *)
Fixpoint non_nil (errs : list (option error)) : list error :=
  match errs with
  | [] => []
  | None :: rest => non_nil rest
  | Some e :: rest => e :: non_nil rest
  end.

Definition Join (errs : list (option error)) : option error :=
  match non_nil errs with
  | [] => None
  | es => Some (joinError es)
  end.

End errors.

(** ** Package strconv *)

Module strconv.

Definition is_digit (c : byte) : bool := in_range c 48 57.

Definition digit_val (c : byte) : Z := byte_code c - 48.

(** The value of a run of decimal digits, [None] at the first other byte. *)
Fixpoint digits_value (acc : Z) (s : list byte) : option Z :=
  match s with
  | [] => Some acc
  | c :: rest =>
      if is_digit c then digits_value (acc * 10 + digit_val c) rest else None
  end.

(** [strconv.ParseInt(s, 10, bitSize)]: an optional sign, then at least one
    decimal digit and nothing else; the value must fit [bitSize] bits.  The
    syntax error and the range error are both [None]: the callers only test
    [err != nil]. *)
Definition ParseInt (s : string) (bitSize : Z) : option Z :=
  match list_byte_of_string s with
  | [] => None
  | c :: rest =>
      let '(neg, ds) :=
        if Byte.eqb c "+" then (false, rest)
        else if Byte.eqb c "-" then (true, rest)
        else (false, c :: rest) in
      match ds with
      | [] => None
      | _ =>
          match digits_value 0 ds with
          | None => None
          | Some un =>
              let cutoff := 2 ^ (bitSize - 1) in
              if negb neg && (cutoff <=? un) then None
              else if neg && (cutoff <? un) then None
              else Some (if neg then - un else un)
          end
      end
  end.

(** [strconv.Atoi(s)] is [ParseInt(s, 10, 0)], with a 64-bit [int]. *)
Definition Atoi (s : string) : option Z := ParseInt s 64.

(** [strconv.Itoa(i)]: the decimal rendering of [i]. *)
Definition Itoa (i : Z) : string := NilZero.string_of_int (Z.to_int i).

(** A decimal floating-point literal read by [strconv.ParseFloat]: the value
    is [(-1)^neg * mant * 10^exp10]. *)
Record decimal : Type := { d_neg : bool; d_mant : Z; d_exp10 : Z }.

(** The digits of the mantissa, with at most one decimal point.  Returns the
    mantissa, whether a digit was seen, the number of digits after the point,
    and the rest of the input. *)
Fixpoint read_mantissa (sawdot sawdigits : bool) (m frac : Z) (s : list byte)
  : Z * bool * Z * list byte :=
  match s with
  | [] => (m, sawdigits, frac, [])
  | c :: rest =>
      if is_digit c then
        read_mantissa sawdot true (m * 10 + digit_val c)
          (if sawdot then frac + 1 else frac) rest
      else if Byte.eqb c "." && negb sawdot then
        read_mantissa true sawdigits m frac rest
      else (m, sawdigits, frac, s)
  end.

(** The digits of the exponent.  As in [readFloat], the exponent stops
    growing once it has reached 10000. *)
Fixpoint read_exponent (e : Z) (s : list byte) : option Z :=
  match s with
  | [] => Some e
  | c :: rest =>
      if is_digit c
      then read_exponent (if e <? 10000 then e * 10 + digit_val c else e) rest
      else None
  end.

Definition read_exponent_part (s : list byte) : option Z :=
  match s with
  | [] => Some 0
  | c :: rest =>
      if Byte.eqb c "e" || Byte.eqb c "E" then
        let '(esign, ds) :=
          match rest with
          | d :: rest' =>
              if Byte.eqb d "+" then (1, rest')
              else if Byte.eqb d "-" then (-1, rest')
              else (1, rest)
          | [] => (1, rest)
          end in
        match ds with
        | [] => None
        | _ => option_map (Z.mul esign) (read_exponent 0 ds)
        end
      else None
  end.

(** [readFloat] for decimal literals.  The other forms [ParseFloat] accepts
    (hexadecimal mantissas, underscores, infinities and NaN) are no JSON
    numbers, and the decoder is the only caller. *)
Definition readFloat (s : list byte) : option decimal :=
  let '(neg, s1) :=
    match s with
    | c :: rest =>
        if Byte.eqb c "+" then (false, rest)
        else if Byte.eqb c "-" then (true, rest)
        else (false, s)
    | [] => (false, s)
    end in
  let '(m, sawdigits, frac, s2) := read_mantissa false false 0 0 s1 in
  if sawdigits then
    match read_exponent_part s2 with
    | Some e => Some {| d_neg := neg; d_mant := m; d_exp10 := e - frac |}
    | None => None
    end
  else None.

(** The binary64 number nearest to [num / den] (ties to even), for positive
    [num] and [den]. *)
Definition round_float64 (neg : bool) (num den : Z) : float64 :=
  let '(q, e, l) := SFdiv_core_binary 53 1024 num 0 den 0 in
  binary_round_aux 53 1024 neg q e l.

Definition atof64 (d : decimal) : float64 :=
  if d_mant d =? 0 then S754_zero (d_neg d)
  else if 0 <=? d_exp10 d
       then round_float64 (d_neg d) (d_mant d * 10 ^ d_exp10 d) 1
       else round_float64 (d_neg d) (d_mant d) (10 ^ (- d_exp10 d)).

(** [strconv.ParseFloat(s, 64)]: the correctly rounded value of the literal;
    a literal that rounds to an infinity is a range error. *)
Definition ParseFloat (s : string) : option float64 :=
  match readFloat (list_byte_of_string s) with
  | None => None
  | Some d =>
      match atof64 d with
      | S754_infinity _ => None
      | f => Some f
      end
  end.

End strconv.

(** ** Package encoding/json *)

Module json.

(** *** The scanner

    [checkValid] runs a byte-at-a-time state machine over the whole input
    before anything is decoded.  Here the machine is split in two: [lex]
    cuts the input into tokens with the scanner's states for strings,
    numbers and the three literals, and [parse_tokens] is the scanner's
    stack of open arrays and objects. *)

Inductive token : Type :=
| TBeginObject | TEndObject | TBeginArray | TEndArray | TColon | TComma
| TString (raw : list byte)
| TNumber (lit : list byte)
| TTrue | TFalse | TNull.

(** The scanner's states inside a number. *)
Inductive numState : Type :=
| stateNeg | state0 | state1 | stateDot | stateDot0
| stateE | stateESign | stateE0.

Inductive lexState : Type :=
| stateBetweenTokens
| stateInString (acc : list byte)
| stateInStringEsc (acc : list byte)
| stateInStringEscU (acc : list byte) (more : nat)
| stateInNumber (st : numState) (acc : list byte)
| stateInLiteral (expect : list byte) (t : token).

Definition isSpace (c : byte) : bool :=
  in_range c 32 32 || in_range c 9 9 || in_range c 13 13 || in_range c 10 10.

Definition is_digit19 (c : byte) : bool := in_range c 49 57.

Definition is_hex (c : byte) : bool :=
  in_range c 48 57 || in_range c 97 102 || in_range c 65 70.

Inductive numStep : Type :=
| NumCont (st : numState)
| NumEnd
| NumError.

Definition num_step (st : numState) (c : byte) : numStep :=
  let is_e := Byte.eqb c "e" || Byte.eqb c "E" in
  match st with
  | stateNeg =>
      if Byte.eqb c "0" then NumCont state0
      else if is_digit19 c then NumCont state1
      else NumError
  | state0 =>
      if Byte.eqb c "." then NumCont stateDot
      else if is_e then NumCont stateE
      else NumEnd
  | state1 =>
      if strconv.is_digit c then NumCont state1
      else if Byte.eqb c "." then NumCont stateDot
      else if is_e then NumCont stateE
      else NumEnd
  | stateDot =>
      if strconv.is_digit c then NumCont stateDot0 else NumError
  | stateDot0 =>
      if strconv.is_digit c then NumCont stateDot0
      else if is_e then NumCont stateE
      else NumEnd
  | stateE =>
      if Byte.eqb c "+" || Byte.eqb c "-" then NumCont stateESign
      else if strconv.is_digit c then NumCont stateE0
      else NumError
  | stateESign =>
      if strconv.is_digit c then NumCont stateE0 else NumError
  | stateE0 =>
      if strconv.is_digit c then NumCont stateE0 else NumEnd
  end.

(** The states in which a number may end. *)
Definition num_final (st : numState) : bool :=
  match st with
  | state0 | state1 | stateDot0 | stateE0 => true
  | _ => false
  end.

(** One byte at the start of a token.  [x22] is the double quote. *)
Definition begin_step (c : byte) (toks : list token)
  : option (lexState * list token) :=
  if isSpace c then Some (stateBetweenTokens, toks)
  else
    match c with
    | "{"%byte => Some (stateBetweenTokens, TBeginObject :: toks)
    | "}"%byte => Some (stateBetweenTokens, TEndObject :: toks)
    | "["%byte => Some (stateBetweenTokens, TBeginArray :: toks)
    | "]"%byte => Some (stateBetweenTokens, TEndArray :: toks)
    | ":"%byte => Some (stateBetweenTokens, TColon :: toks)
    | ","%byte => Some (stateBetweenTokens, TComma :: toks)
    | x22 => Some (stateInString [], toks)
    | "-"%byte => Some (stateInNumber stateNeg [c], toks)
    | "0"%byte => Some (stateInNumber state0 [c], toks)
    | "t"%byte => Some (stateInLiteral (list_byte_of_string "rue") TTrue, toks)
    | "f"%byte => Some (stateInLiteral (list_byte_of_string "alse") TFalse, toks)
    | "n"%byte => Some (stateInLiteral (list_byte_of_string "ull") TNull, toks)
    | _ =>
        if is_digit19 c then Some (stateInNumber state1 [c], toks) else None
    end.

(** One step of the scanner; [toks] and the accumulators are in reverse
    order. *)
Definition lex_step (st : lexState) (toks : list token) (c : byte)
  : option (lexState * list token) :=
  match st with
  | stateBetweenTokens => begin_step c toks
  | stateInString acc =>
      match c with
      | x22 => Some (stateBetweenTokens, TString (rev acc) :: toks)
      | "\"%byte => Some (stateInStringEsc (c :: acc), toks)
      | _ => if byte_code c <? 32 then None
             else Some (stateInString (c :: acc), toks)
      end
  | stateInStringEsc acc =>
      match c with
      | "b"%byte | "f"%byte | "n"%byte | "r"%byte | "t"%byte
      | "\"%byte | "/"%byte | x22 => Some (stateInString (c :: acc), toks)
      | "u"%byte => Some (stateInStringEscU (c :: acc) 4, toks)
      | _ => None
      end
  | stateInStringEscU acc more =>
      if is_hex c then
        match more with
        | S (S n) => Some (stateInStringEscU (c :: acc) (S n), toks)
        | _ => Some (stateInString (c :: acc), toks)
        end
      else None
  | stateInNumber ns acc =>
      match num_step ns c with
      | NumCont ns' => Some (stateInNumber ns' (c :: acc), toks)
      | NumEnd => begin_step c (TNumber (rev acc) :: toks)
      | NumError => None
      end
  | stateInLiteral expect t =>
      match expect with
      | e :: rest =>
          if Byte.eqb c e then
            match rest with
            | [] => Some (stateBetweenTokens, t :: toks)
            | _ => Some (stateInLiteral rest t, toks)
            end
          else None
      | [] => None
      end
  end.

Fixpoint lex_from (st : lexState) (toks : list token) (s : list byte)
  : option (list token) :=
  match s with
  | c :: rest =>
      match lex_step st toks c with
      | Some (st', toks') => lex_from st' toks' rest
      | None => None
      end
  | [] =>
      match st with
      | stateBetweenTokens => Some (rev toks)
      | stateInNumber ns acc =>
          if num_final ns then Some (rev (TNumber (rev acc) :: toks)) else None
      | _ => None
      end
  end.

Definition lex (s : list byte) : option (list token) :=
  lex_from stateBetweenTokens [] s.

(** *** Strings

    [unquoteBytes] turns the text between the quotes into the bytes of the
    Go string: escapes are replaced, a code unit of a surrogate pair that
    has no partner and every byte that is not part of a well-formed UTF-8
    sequence become U+FFFD. *)

Definition hex_val (c : byte) : Z :=
  if in_range c 48 57 then byte_code c - 48
  else if in_range c 97 102 then byte_code c - 97 + 10
  else if in_range c 65 70 then byte_code c - 65 + 10
  else -1.

(** [getu4] on the four bytes after a backslash and a u. *)
Definition getu4 (a b c d : byte) : Z :=
  ((hex_val a * 16 + hex_val b) * 16 + hex_val c) * 16 + hex_val d.

Definition ReplacementChar : Z := 65533.

(** [utf8.AppendRune]. *)
Definition AppendRune (r : Z) : list byte :=
  if r <? 128 then [byte_of_code r]
  else if r <? 2048 then
    [byte_of_code (192 + r / 64); byte_of_code (128 + r mod 64)]
  else if (55296 <=? r) && (r <? 57344) then
    [byte_of_code 239; byte_of_code 191; byte_of_code 189]
  else if r <? 65536 then
    [byte_of_code (224 + r / 4096); byte_of_code (128 + (r / 64) mod 64);
     byte_of_code (128 + r mod 64)]
  else
    [byte_of_code (240 + r / 262144); byte_of_code (128 + (r / 4096) mod 64);
     byte_of_code (128 + (r / 64) mod 64); byte_of_code (128 + r mod 64)].

(** [utf16.IsSurrogate] and [utf16.DecodeRune]. *)
Definition IsSurrogate (r : Z) : bool := (55296 <=? r) && (r <? 57344).

Definition utf16_DecodeRune (r1 r2 : Z) : Z :=
  if (55296 <=? r1) && (r1 <? 56320) && (56320 <=? r2) && (r2 <? 57344)
  then (r1 - 55296) * 1024 + (r2 - 56320) + 65536
  else ReplacementChar.

(** The byte an escape other than u stands for. *)
Definition escape_byte (c : byte) : byte :=
  match c with
  | "b"%byte => byte_of_code 8
  | "f"%byte => byte_of_code 12
  | "n"%byte => byte_of_code 10
  | "r"%byte => byte_of_code 13
  | "t"%byte => byte_of_code 9
  | _ => c
  end.

(** For the first byte of a multi-byte UTF-8 sequence: its length and the
    bounds of its second byte ([utf8.DecodeRune]'s table of accepted
    ranges). *)
Definition utf8_first (c : byte) : option (nat * Z * Z) :=
  let n := byte_code c in
  if (194 <=? n) && (n <=? 223) then Some (2%nat, 128, 191)
  else if n =? 224 then Some (3%nat, 160, 191)
  else if n =? 237 then Some (3%nat, 128, 159)
  else if (225 <=? n) && (n <=? 239) then Some (3%nat, 128, 191)
  else if n =? 240 then Some (4%nat, 144, 191)
  else if (241 <=? n) && (n <=? 243) then Some (4%nat, 128, 191)
  else if n =? 244 then Some (4%nat, 128, 143)
  else None.

Definition is_cont (c : byte) : bool := in_range c 128 191.

Fixpoint unquoteBytes (s : list byte) : list byte :=
  match s with
  | [] => []
  | c :: s1 =>
      if Byte.eqb c "\" then
        match s1 with
        | [] => []
        | e :: s2 =>
            if Byte.eqb e "u" then
              match s2 with
              | h1 :: h2 :: h3 :: h4 :: s6 =>
                  let rr := getu4 h1 h2 h3 h4 in
                  if IsSurrogate rr then
                    match s6 with
                    | b :: u :: k1 :: k2 :: k3 :: k4 :: s12 =>
                        let rr1 :=
                          if Byte.eqb b "\" && Byte.eqb u "u"
                          then getu4 k1 k2 k3 k4 else -1 in
                        let dec := utf16_DecodeRune rr rr1 in
                        if dec =? ReplacementChar
                        then AppendRune ReplacementChar ++ unquoteBytes s6
                        else AppendRune dec ++ unquoteBytes s12
                    | _ => AppendRune ReplacementChar ++ unquoteBytes s6
                    end
                  else AppendRune rr ++ unquoteBytes s6
              | _ => []
              end
            else escape_byte e :: unquoteBytes s2
        end
      else if byte_code c <? 128 then c :: unquoteBytes s1
      else
        let bad := AppendRune ReplacementChar ++ unquoteBytes s1 in
        match utf8_first c, s1 with
        | Some (n, lo, hi), b1 :: r1 =>
            if in_range b1 lo hi then
              match n, r1 with
              | 2%nat, _ => c :: b1 :: unquoteBytes r1
              | 3%nat, b2 :: r2 =>
                  if is_cont b2 then c :: b1 :: b2 :: unquoteBytes r2 else bad
              | 4%nat, b2 :: b3 :: r3 =>
                  if is_cont b2 && is_cont b3
                  then c :: b1 :: b2 :: b3 :: unquoteBytes r3 else bad
              | _, _ => bad
              end
            else bad
        | _, _ => bad
        end
  end.

Definition unquote (raw : list byte) : string :=
  string_of_list_byte (unquoteBytes raw).

(** *** Values and the scanner's stack *)

Inductive Value : Type :=
| JNull
| JBool (b : bool)
| JNumber (lit : string)
| JString (s : string)
| JArray (elems : list Value)
| JObject (members : list (string * Value)).

(** The scanner's [parseState] stack, each entry with what has been read of
    its array or object so far (in reverse order). *)
Inductive parseState : Type :=
| parseObjectKey (members : list (string * Value)) (key : option string)
| parseObjectValue (members : list (string * Value)) (key : string)
| parseArrayValue (elems : list Value).

Inductive step : Type :=
| stateBeginValueOrEmpty
| stateBeginValue
| stateBeginStringOrEmpty
| stateBeginString
| stateEndValue
| stateEndTop (v : Value).

Definition maxNestingDepth : Z := 10000.

Definition pushParseState (ps : parseState) (stack : list parseState)
  (success : step) : option (step * list parseState) :=
  if Z.of_nat (List.length (ps :: stack)) <=? maxNestingDepth
  then Some (success, ps :: stack)
  else None.

(** A value is complete: it is the document, or it goes into the innermost
    open array or object. *)
Definition end_value (v : Value) (stack : list parseState)
  : option (step * list parseState) :=
  match stack with
  | [] => Some (stateEndTop v, [])
  | parseArrayValue es :: st => Some (stateEndValue, parseArrayValue (v :: es) :: st)
  | parseObjectValue ms k :: st =>
      Some (stateEndValue, parseObjectValue ((k, v) :: ms) k :: st)
  | parseObjectKey _ _ :: _ => None
  end.

Definition begin_value (t : token) (stack : list parseState)
  : option (step * list parseState) :=
  match t with
  | TBeginObject => pushParseState (parseObjectKey [] None) stack stateBeginStringOrEmpty
  | TBeginArray => pushParseState (parseArrayValue []) stack stateBeginValueOrEmpty
  | TString raw => end_value (JString (unquote raw)) stack
  | TNumber lit => end_value (JNumber (string_of_list_byte lit)) stack
  | TTrue => end_value (JBool true) stack
  | TFalse => end_value (JBool false) stack
  | TNull => end_value JNull stack
  | _ => None
  end.

Definition begin_string (t : token) (stack : list parseState)
  : option (step * list parseState) :=
  match t, stack with
  | TString raw, parseObjectKey ms _ :: st =>
      Some (stateEndValue, parseObjectKey ms (Some (unquote raw)) :: st)
  | _, _ => None
  end.

Definition parse_step (s : step) (stack : list parseState) (t : token)
  : option (step * list parseState) :=
  match s with
  | stateBeginValueOrEmpty =>
      match t, stack with
      | TEndArray, parseArrayValue es :: st => end_value (JArray (rev es)) st
      | TEndArray, _ => None
      | _, _ => begin_value t stack
      end
  | stateBeginValue => begin_value t stack
  | stateBeginStringOrEmpty =>
      match t, stack with
      | TEndObject, parseObjectKey ms _ :: st => end_value (JObject (rev ms)) st
      | TEndObject, _ => None
      | _, _ => begin_string t stack
      end
  | stateBeginString => begin_string t stack
  | stateEndValue =>
      match stack, t with
      | parseObjectKey ms (Some k) :: st, TColon =>
          Some (stateBeginValue, parseObjectValue ms k :: st)
      | parseObjectValue ms _ :: st, TComma =>
          Some (stateBeginString, parseObjectKey ms None :: st)
      | parseObjectValue ms _ :: st, TEndObject => end_value (JObject (rev ms)) st
      | parseArrayValue _ :: _, TComma => Some (stateBeginValue, stack)
      | parseArrayValue es :: st, TEndArray => end_value (JArray (rev es)) st
      | _, _ => None
      end
  | stateEndTop _ => None
  end.

Fixpoint parse_tokens (s : step) (stack : list parseState) (toks : list token)
  : option Value :=
  match toks with
  | t :: rest =>
      match parse_step s stack t with
      | Some (s', stack') => parse_tokens s' stack' rest
      | None => None
      end
  | [] =>
      match s with
      | stateEndTop v => Some v
      | _ => None
      end
  end.

(** The document a byte sequence denotes, if it is valid JSON. *)
Definition parse (data : list byte) : option Value :=
  match lex data with
  | Some toks => parse_tokens stateBeginValue [] toks
  | None => None
  end.

(** [checkValid(data, scan) == nil]. *)
Definition checkValid (data : list byte) : bool :=
  match parse data with
  | Some _ => true
  | None => false
  end.

(** *** Decoding into a struct

    The decoder reaches the fields of the target through reflection.  A
    struct type [T] is described here by its list of fields, each with its
    JSON name (the struct tag) and, by kind, the assignment that
    [reflect.Value.SetInt], [SetString] or [SetFloat] performs. *)

Inductive fieldSetter (T : Type) : Type :=
| IntField (set : Z -> T -> T)
| StringField (set : string -> T -> T)
| Float64Field (set : float64 -> T -> T).

Arguments IntField {T} set.
Arguments StringField {T} set.
Arguments Float64Field {T} set.

Record field (T : Type) : Type :=
  { name : string; setter : fieldSetter T }.

Arguments name {T} f.
Arguments setter {T} f.

(** [foldName], on the names that can equal the fold of an ASCII name.  An
    ASCII letter folds to its upper case; the two other runes whose simple
    case folding reaches an ASCII letter are U+017F (long s, bytes C5 BF) and
    U+212A (Kelvin sign, bytes E2 84 AA).  Every other rune folds to a rune
    outside ASCII and is kept as it is: against the ASCII-only names of the
    struct tags the comparison of the folded names comes out the same. *)
Fixpoint foldBytes (s : list byte) : list byte :=
  match s with
  | [] => []
  | c :: rest =>
      if in_range c 97 122 then byte_of_code (byte_code c - 32) :: foldBytes rest
      else
        match rest with
        | c1 :: rest1 =>
            if (byte_code c =? 197) && (byte_code c1 =? 191)
            then "S"%byte :: foldBytes rest1
            else
              match rest1 with
              | c2 :: rest2 =>
                  if (byte_code c =? 226) && (byte_code c1 =? 132)
                     && (byte_code c2 =? 170)
                  then "K"%byte :: foldBytes rest2
                  else c :: foldBytes rest
              | [] => c :: foldBytes rest
              end
        | [] => [c]
        end
  end.

Definition foldName (s : string) : string :=
  string_of_list_byte (foldBytes (list_byte_of_string s)).

(** The field a key of the object names: the field of that exact name,
    else the first field with the same folded name. *)
Definition find_field {T : Type} (fields : list (field T)) (key : string)
  : option (field T) :=
  match find (fun f => String.eqb (name f) key) fields with
  | Some f => Some f
  | None =>
      find (fun f => String.eqb (foldName (name f)) (foldName key)) fields
  end.

Record decodeState (T : Type) : Type :=
  { target : T; savedError : option error }.

Arguments Build_decodeState {T} target savedError.
Arguments target {T} d.
Arguments savedError {T} d.

(** [d.saveError(err)]: only the first error is kept, decoding goes on. *)
Definition saveError {T : Type} (d : decodeState T) (e : error)
  : decodeState T :=
  match savedError d with
  | None => {| target := target d; savedError := Some e |}
  | Some _ => d
  end.

Definition assign {T : Type} (d : decodeState T) (set : T -> T)
  : decodeState T :=
  {| target := set (target d); savedError := savedError d |}.

(** [d.value(subv)] for a field of kind int, string or float64.  A null
    leaves the field as it is; a value of another JSON type, or a number
    that the field's type cannot hold, is an [UnmarshalTypeError]. *)
Definition store {T : Type} (f : field T) (v : Value) (d : decodeState T)
  : decodeState T :=
  match v with
  | JNull => d
  | JBool _ => saveError d (UnmarshalTypeError "bool" (name f))
  | JArray _ => saveError d (UnmarshalTypeError "array" (name f))
  | JObject _ => saveError d (UnmarshalTypeError "object" (name f))
  | JString s =>
      match setter f with
      | StringField set => assign d (set s)
      | _ => saveError d (UnmarshalTypeError "string" (name f))
      end
  | JNumber lit =>
      match setter f with
      | IntField set =>
          match strconv.ParseInt lit 64 with
          | Some n => assign d (set n)
          | None => saveError d (UnmarshalTypeError ("number " ++ lit) (name f))
          end
      | Float64Field set =>
          match strconv.ParseFloat lit with
          | Some x => assign d (set x)
          | None => saveError d (UnmarshalTypeError ("number " ++ lit) (name f))
          end
      | StringField _ => saveError d (UnmarshalTypeError "number" (name f))
      end
  end.

(** One member of the object: the value of a key that names no field is
    skipped. *)
Definition object_member {T : Type} (fields : list (field T))
  (d : decodeState T) (kv : string * Value) : decodeState T :=
  match find_field fields (fst kv) with
  | Some f => store f (snd kv) d
  | None => d
  end.

(** [d.value(rv)] at the top level, for a struct target. *)
Definition decode_value {T : Type} (fields : list (field T)) (doc : Value)
  (d : decodeState T) : decodeState T :=
  match doc with
  | JObject members => fold_left (object_member fields) members d
  | JNull => d
  | JBool _ => saveError d (UnmarshalTypeError "bool" "")
  | JNumber _ => saveError d (UnmarshalTypeError "number" "")
  | JString _ => saveError d (UnmarshalTypeError "string" "")
  | JArray _ => saveError d (UnmarshalTypeError "array" "")
  end.

(** [json.Unmarshal(data, &v)]: the struct after the call, and the error. *)
Definition Unmarshal {T : Type} (fields : list (field T)) (data : list byte)
  (v : T) : T * option error :=
  match parse data with
  | None => (v, Some SyntaxError)
  | Some doc =>
      let d := decode_value fields doc {| target := v; savedError := None |} in
      (target d, savedError d)
  end.

End json.

(** ** Package io and net/http *)

Module io.

(** A request body: the bytes it delivers, and the error (if any) with which
    reading it stops instead of reaching the end. *)
Record Reader : Type := { content : list byte; failure : option error }.

Definition ReadAll (r : Reader) : list byte * option error :=
  (content r, failure r).

End io.

Module http.

Definition MethodPost : string := "POST".
Definition StatusOK : Z := 200.
Definition StatusBadRequest : Z := 400.
Definition StatusMethodNotAllowed : Z := 405.
Definition StatusInternalServerError : Z := 500.

Record Request : Type := { Method : string; Body : io.Reader }.

(** What a handler has done to its [ResponseWriter]: the header map, the
    status code once it is written, and the body bytes written. *)
Record ResponseWriter : Type :=
  { Header : list (string * string); Status : option Z; Written : string }.

Definition newResponse : ResponseWriter :=
  {| Header := []; Status := None; Written := "" |}.

Definition Header_Del (k : string) (h : list (string * string))
  : list (string * string) :=
  filter (fun kv => negb (String.eqb (fst kv) k)) h.

Definition Header_Set (k v : string) (h : list (string * string))
  : list (string * string) :=
  Header_Del k h ++ [(k, v)].

(** [h.Get(k)], [None] for a key that is not in the map. *)
Definition Header_Get (k : string) (h : list (string * string))
  : option string :=
  option_map snd (find (fun kv => String.eqb (fst kv) k) h).

(** [w.WriteHeader(code)]; a second call has no effect. *)
Definition WriteHeader (code : Z) (w : ResponseWriter) : ResponseWriter :=
  match Status w with
  | Some _ => w
  | None => {| Header := Header w; Status := Some code; Written := Written w |}
  end.

(** [w.Write(p)]; the first write sends status 200 if none was sent. *)
Definition write (p : string) (w : ResponseWriter) : ResponseWriter :=
  let w := WriteHeader StatusOK w in
  {| Header := Header w; Status := Status w;
     Written := (Written w ++ p)%string |}.

Definition newline : string := String (Ascii.ascii_of_nat 10) EmptyString.

(** [fmt.Fprintln(w, s)]. *)
Definition Fprintln (w : ResponseWriter) (s : string) : ResponseWriter :=
  write (s ++ newline)%string w.

(** [http.Error(w, error, code)]. *)
Definition Error (w : ResponseWriter) (msg : string) (code : Z)
  : ResponseWriter :=
  let h := Header_Del "Content-Length" (Header w) in
  let h := Header_Set "Content-Type" "text/plain; charset=utf-8" h in
  let h := Header_Set "X-Content-Type-Options" "nosniff" h in
  let w := {| Header := h; Status := Status w; Written := Written w |} in
  let w := WriteHeader code w in
  Fprintln w msg.

End http.

(** ** The OpenTelemetry API *)

Module attribute.

Inductive Value : Type :=
| STRING (s : string)
| INT64 (i : Z)
| FLOAT64 (f : float64).

Definition KeyValue : Type := (string * Value)%type.

Definition String (k v : string) : KeyValue := (k, STRING v).
Definition Int (k : string) (v : Z) : KeyValue := (k, INT64 v).
Definition Float64 (k : string) (v : float64) : KeyValue := (k, FLOAT64 v).

End attribute.

(** ** Package main *)

(** *** [WebhookPayload] *)

Record WebhookPayload : Type :=
  { ResultID : Z;
    SiteName : string;
    Service : string;
    ServerName : string;
    ServerID : Z;
    ISP : string;
    Ping : float64;
    Download : float64;
    Upload : float64;
    PacketLoss : float64;
    SpeedtestURL : string;
    URL : string }.

(** The zero value, [var payload WebhookPayload]. *)
Definition WebhookPayload_zero : WebhookPayload :=
  {| ResultID := 0; SiteName := ""; Service := ""; ServerName := "";
     ServerID := 0; ISP := ""; Ping := float64_zero;
     Download := float64_zero; Upload := float64_zero;
     PacketLoss := float64_zero; SpeedtestURL := ""; URL := "" |}.

Definition set_ResultID (v : Z) (p : WebhookPayload) : WebhookPayload :=
  {| ResultID := v; SiteName := SiteName p; Service := Service p;
     ServerName := ServerName p; ServerID := ServerID p; ISP := ISP p;
     Ping := Ping p; Download := Download p; Upload := Upload p;
     PacketLoss := PacketLoss p; SpeedtestURL := SpeedtestURL p;
     URL := URL p |}.

Definition set_SiteName (v : string) (p : WebhookPayload) : WebhookPayload :=
  {| ResultID := ResultID p; SiteName := v; Service := Service p;
     ServerName := ServerName p; ServerID := ServerID p; ISP := ISP p;
     Ping := Ping p; Download := Download p; Upload := Upload p;
     PacketLoss := PacketLoss p; SpeedtestURL := SpeedtestURL p;
     URL := URL p |}.

Definition set_Service (v : string) (p : WebhookPayload) : WebhookPayload :=
  {| ResultID := ResultID p; SiteName := SiteName p; Service := v;
     ServerName := ServerName p; ServerID := ServerID p; ISP := ISP p;
     Ping := Ping p; Download := Download p; Upload := Upload p;
     PacketLoss := PacketLoss p; SpeedtestURL := SpeedtestURL p;
     URL := URL p |}.

Definition set_ServerName (v : string) (p : WebhookPayload) : WebhookPayload :=
  {| ResultID := ResultID p; SiteName := SiteName p; Service := Service p;
     ServerName := v; ServerID := ServerID p; ISP := ISP p;
     Ping := Ping p; Download := Download p; Upload := Upload p;
     PacketLoss := PacketLoss p; SpeedtestURL := SpeedtestURL p;
     URL := URL p |}.

Definition set_ServerID (v : Z) (p : WebhookPayload) : WebhookPayload :=
  {| ResultID := ResultID p; SiteName := SiteName p; Service := Service p;
     ServerName := ServerName p; ServerID := v; ISP := ISP p;
     Ping := Ping p; Download := Download p; Upload := Upload p;
     PacketLoss := PacketLoss p; SpeedtestURL := SpeedtestURL p;
     URL := URL p |}.

Definition set_ISP (v : string) (p : WebhookPayload) : WebhookPayload :=
  {| ResultID := ResultID p; SiteName := SiteName p; Service := Service p;
     ServerName := ServerName p; ServerID := ServerID p; ISP := v;
     Ping := Ping p; Download := Download p; Upload := Upload p;
     PacketLoss := PacketLoss p; SpeedtestURL := SpeedtestURL p;
     URL := URL p |}.

Definition set_Ping (v : float64) (p : WebhookPayload) : WebhookPayload :=
  {| ResultID := ResultID p; SiteName := SiteName p; Service := Service p;
     ServerName := ServerName p; ServerID := ServerID p; ISP := ISP p;
     Ping := v; Download := Download p; Upload := Upload p;
     PacketLoss := PacketLoss p; SpeedtestURL := SpeedtestURL p;
     URL := URL p |}.

Definition set_Download (v : float64) (p : WebhookPayload) : WebhookPayload :=
  {| ResultID := ResultID p; SiteName := SiteName p; Service := Service p;
     ServerName := ServerName p; ServerID := ServerID p; ISP := ISP p;
     Ping := Ping p; Download := v; Upload := Upload p;
     PacketLoss := PacketLoss p; SpeedtestURL := SpeedtestURL p;
     URL := URL p |}.

Definition set_Upload (v : float64) (p : WebhookPayload) : WebhookPayload :=
  {| ResultID := ResultID p; SiteName := SiteName p; Service := Service p;
     ServerName := ServerName p; ServerID := ServerID p; ISP := ISP p;
     Ping := Ping p; Download := Download p; Upload := v;
     PacketLoss := PacketLoss p; SpeedtestURL := SpeedtestURL p;
     URL := URL p |}.

Definition set_PacketLoss (v : float64) (p : WebhookPayload) : WebhookPayload :=
  {| ResultID := ResultID p; SiteName := SiteName p; Service := Service p;
     ServerName := ServerName p; ServerID := ServerID p; ISP := ISP p;
     Ping := Ping p; Download := Download p; Upload := Upload p;
     PacketLoss := v; SpeedtestURL := SpeedtestURL p;
     URL := URL p |}.

Definition set_SpeedtestURL (v : string) (p : WebhookPayload) : WebhookPayload :=
  {| ResultID := ResultID p; SiteName := SiteName p; Service := Service p;
     ServerName := ServerName p; ServerID := ServerID p; ISP := ISP p;
     Ping := Ping p; Download := Download p; Upload := Upload p;
     PacketLoss := PacketLoss p; SpeedtestURL := v;
     URL := URL p |}.

Definition set_URL (v : string) (p : WebhookPayload) : WebhookPayload :=
  {| ResultID := ResultID p; SiteName := SiteName p; Service := Service p;
     ServerName := ServerName p; ServerID := ServerID p; ISP := ISP p;
     Ping := Ping p; Download := Download p; Upload := Upload p;
     PacketLoss := PacketLoss p; SpeedtestURL := SpeedtestURL p;
     URL := v |}.

(** The fields of [WebhookPayload] in declaration order, under the names of
    their [json] struct tags. *)
Definition WebhookPayload_fields : list (json.field WebhookPayload) :=
  [ {| json.name := "result_id"; json.setter := json.IntField set_ResultID |};
    {| json.name := "site_name"; json.setter := json.StringField set_SiteName |};
    {| json.name := "service"; json.setter := json.StringField set_Service |};
    {| json.name := "serverName"; json.setter := json.StringField set_ServerName |};
    {| json.name := "serverId"; json.setter := json.IntField set_ServerID |};
    {| json.name := "isp"; json.setter := json.StringField set_ISP |};
    {| json.name := "ping"; json.setter := json.Float64Field set_Ping |};
    {| json.name := "download"; json.setter := json.Float64Field set_Download |};
    {| json.name := "upload"; json.setter := json.Float64Field set_Upload |};
    {| json.name := "packetLoss"; json.setter := json.Float64Field set_PacketLoss |};
    {| json.name := "speedtest_url"; json.setter := json.StringField set_SpeedtestURL |};
    {| json.name := "url"; json.setter := json.StringField set_URL |} ].

(** *** The global telemetry variables

    The three histograms are the package-level variables of [main.go].  The
    handler only calls methods of the tracer, of the span it started and of
    the histograms, and none of them returns a value the handler looks at;
    a provider is therefore any state [T] with one transition per call. *)

Inductive Instrument : Type :=
| pingHistogram
| downloadHistogram
| uploadHistogram.

Class Telemetry (T : Type) : Type :=
  { tracer_Start : string -> T -> T;
    span_End : T -> T;
    span_RecordError : error -> T -> T;
    span_AddEvent : string -> list attribute.KeyValue -> T -> T;
    histogram_Record :
      Instrument -> float64 -> list attribute.KeyValue -> T -> T;
    log_Printf : string -> T -> T }.

(** The provider that only remembers what it was asked to do, in order. *)
Inductive Effect : Type :=
| SpanStart (name : string)
| SpanEnd
| SpanRecordError (e : error)
| SpanAddEvent (name : string) (attrs : list attribute.KeyValue)
| Record_ (i : Instrument) (value : float64) (attrs : list attribute.KeyValue)
| LogPrintf (msg : string).

#[export] Instance recorder : Telemetry (list Effect) :=
  {| tracer_Start := fun n t => t ++ [SpanStart n];
     span_End := fun t => t ++ [SpanEnd];
     span_RecordError := fun e t => t ++ [SpanRecordError e];
     span_AddEvent := fun n a t => t ++ [SpanAddEvent n a];
     histogram_Record := fun i v a t => t ++ [Record_ i v a];
     log_Printf := fun m t => t ++ [LogPrintf m] |}.

(** *** [webhookHandler] *)

Definition webhookHandler {T : Type} `{Telemetry T}
  (w : http.ResponseWriter) (r : http.Request) (t : T)
  : http.ResponseWriter * T :=
  if negb (String.eqb (http.Method r) http.MethodPost) then
    (http.Error w "Method not allowed" http.StatusMethodNotAllowed, t)
  else
    let t := tracer_Start "handleWebhookRequest" t in
    (* defer span.End(): every exit below ends the span last *)
    let '(body, err) := io.ReadAll (http.Body r) in
    match err with
    | Some e =>
        let t := span_RecordError e t in
        let w := http.Error w "Error reading request body"
                   http.StatusInternalServerError in
        (w, span_End t)
    | None =>
        let '(payload, err) :=
          json.Unmarshal WebhookPayload_fields body WebhookPayload_zero in
        match err with
        | Some e =>
            let t := span_RecordError e t in
            let w := http.Error w "Error parsing JSON payload"
                       http.StatusBadRequest in
            (w, span_End t)
        | None =>
            let t := log_Printf
                       ("Received speedtest result for server ID: "
                        ++ strconv.Itoa (ServerID payload))%string t in
            let metricOpts :=
              [ attribute.String "server.id" (strconv.Itoa (ServerID payload));
                attribute.String "server.name" (ServerName payload);
                attribute.String "isp" (ISP payload) ] in
            let t := histogram_Record pingHistogram (Ping payload) metricOpts t in
            let t := histogram_Record downloadHistogram (Download payload) metricOpts t in
            let t := histogram_Record uploadHistogram (Upload payload) metricOpts t in
            let t := span_AddEvent "speedtest.result"
                       [ attribute.Int "result_id" (ResultID payload);
                         attribute.String "site_name" (SiteName payload);
                         attribute.String "service" (Service payload);
                         attribute.String "server.name" (ServerName payload);
                         attribute.Int "server.id" (ServerID payload);
                         attribute.String "isp" (ISP payload);
                         attribute.Float64 "ping" (Ping payload);
                         attribute.Float64 "download.bps" (Download payload);
                         attribute.Float64 "upload.bps" (Upload payload);
                         attribute.Float64 "packet.loss" (PacketLoss payload);
                         attribute.String "speedtest.url" (SpeedtestURL payload) ] t in
            let w := http.WriteHeader http.StatusOK w in
            let w := http.Fprintln w "Webhook received and processed." in
            (w, span_End t)
        end
    end.

(** *** [run] and [main]

    What the world answers to the calls of [run] is an [Env]; what [run]
    does is the sequence of its calls (an [Event] list) and an [Outcome].
    [setupOTelSDK] is defined in another file of the package: only its error
    and the error of the shutdown function it returns matter here. *)

Record Env : Type :=
  { (** the error of [godotenv.Load()] *)
    godotenv_Load : option error;
    (** the error of [setupOTelSDK(ctx)] *)
    setupOTelSDK : option error;
    (** the error of the shutdown function [setupOTelSDK] returned *)
    otelShutdown : option error;
    (** the error of [meter.Float64Histogram(name, ...)] *)
    Float64Histogram : string -> option error;
    (** [os.Getenv] *)
    Getenv : string -> string;
    (** the error other than [http.ErrServerClosed] with which
        [server.ListenAndServe()] returns before any signal, if it does *)
    ListenAndServe : option error;
    (** whether SIGINT or SIGTERM is ever delivered to the process *)
    Stop : bool;
    (** the error of [server.Shutdown(ctx)] *)
    Shutdown : option error }.

Inductive Event : Type :=
| EvNotifyContext
| EvCancel
| EvSetupOTelSDK
| EvOtelShutdown
| EvTracer (name : string)
| EvMeter (name : string)
| EvFloat64Histogram (name description unit : string)
| EvGetenv (key : string)
| EvHandle (pattern : string)
| EvNewServer (addr : string)
| EvSignalNotify
| EvListenAndServe (addr : string)
| EvServerShutdown (timeout_seconds : Z)
| EvLog (msg : string)
| EvFatal (msg : string) (e : error).

(** [run] returns its result, or the process is ended by [log.Fatalf]
    ([os.Exit(1)], which runs no deferred call), or [run] waits for a signal
    for ever while the server serves. *)
Inductive Outcome : Type :=
| Returned (err : option error)
| Exited (code : Z)
| Blocked.

(** The variables of [run] that a deferred call can see: the local variable
    [err], and the result of the function.  The result of [run] has no name,
    so a [return] statement stores its operand in [result] and no deferred
    call can assign to it. *)
Record frame : Type := { err : option error; result : option error }.

Definition set_err (e : option error) (fr : frame) : frame :=
  {| err := e; result := result fr |}.

Definition Deferred : Type := frame -> list Event -> frame * list Event.

(** The deferred calls, last deferred first. *)
Fixpoint run_deferred (ds : list Deferred) (fr : frame) (tr : list Event)
  : frame * list Event :=
  match ds with
  | [] => (fr, tr)
  | d :: rest => let '(fr', tr') := d fr tr in run_deferred rest fr' tr'
  end.

(** [return v]: store the result, run the deferred calls, hand the result
    to the caller. *)
Definition return_ (ds : list Deferred) (fr : frame) (tr : list Event)
  (v : option error) : list Event * Outcome :=
  let '(fr', tr') := run_deferred ds {| err := err fr; result := v |} tr in
  (tr', Returned (result fr')).

Definition Fatalf (tr : list Event) (msg : string) (e : error)
  : list Event * Outcome :=
  (tr ++ [EvFatal msg e], Exited 1).

Definition cancel_ : Deferred := fun fr tr => (fr, tr ++ [EvCancel]).

(** [defer func() { err = errors.Join(err, otelShutdown(context.Background())) }()] *)
Definition deferred_otelShutdown (env : Env) : Deferred :=
  fun fr tr =>
    (set_err (errors.Join [err fr; otelShutdown env]) fr,
     tr ++ [EvOtelShutdown]).

Definition run (env : Env) : list Event * Outcome :=
  let tr := [EvNotifyContext] in
  let ds := [cancel_] in
  let tr := tr ++ [EvSetupOTelSDK] in
  let fr := {| err := setupOTelSDK env; result := None |} in
  match err fr with
  | Some _ => return_ ds fr tr (err fr)
  | None =>
  let ds := deferred_otelShutdown env :: ds in
  let tr := tr ++ [EvTracer "speedtest-webhook/tracer";
                   EvMeter "speedtest-webhook/meter"] in
  let tr := tr ++ [EvFloat64Histogram "speedtest.ping" "Ping latency" "ms"] in
  let fr := set_err (Float64Histogram env "speedtest.ping") fr in
  match err fr with
  | Some e => Fatalf tr "Failed to create ping histogram: %v" e
  | None =>
  let tr := tr ++ [EvFloat64Histogram "speedtest.download" "Download speed" "bps"] in
  let fr := set_err (Float64Histogram env "speedtest.download") fr in
  match err fr with
  | Some e => Fatalf tr "Failed to create download histogram: %v" e
  | None =>
  let tr := tr ++ [EvFloat64Histogram "speedtest.upload" "Upload speed" "bps"] in
  let fr := set_err (Float64Histogram env "speedtest.upload") fr in
  match err fr with
  | Some e => Fatalf tr "Failed to create upload histogram: %v" e
  | None =>
  let tr := tr ++ [EvGetenv "STW_SERVER_PORT"] in
  let portRaw := Getenv env "STW_SERVER_PORT" in
  if String.eqb portRaw "" then
    return_ ds fr tr (Some (errorString "missing env var STW_SERVER_PORT"))
  else
  match strconv.Atoi portRaw with
  | None =>
      (* the error of Atoi is in err *)
      let fr := set_err (Some (errorString "strconv.Atoi")) fr in
      return_ ds fr tr
        (Some (errorString
                 ("inavlid value for env var STW_SERVER_PORT " ++ portRaw)%string))
  | Some port =>
  let fr := set_err None fr in
  let tr := tr ++ [EvHandle "/webhook"] in
  let addr := (":" ++ strconv.Itoa port)%string in
  let tr := tr ++ [EvNewServer addr] in
  let tr := tr ++ [EvSignalNotify] in
  (* go func() { ... server.ListenAndServe() ... }() *)
  let tr := tr ++ [EvLog ("Server starting on port " ++ strconv.Itoa port)%string;
                   EvListenAndServe addr] in
  match ListenAndServe env with
  | Some e => Fatalf tr "Could not listen on port %d: %v" e
  | None =>
  (* <-stop *)
  if negb (Stop env) then (tr, Blocked) else
  let tr := tr ++ [EvLog "Shutting down server..."] in
  let ds := cancel_ :: ds in
  let tr := tr ++ [EvServerShutdown 5] in
  match Shutdown env with
  | Some e => return_ ds fr tr (Some e)
  | None =>
  let tr := tr ++ [EvLog "Server gracefully stopped."] in
  return_ ds fr tr None
  end end end end end end end.

(** [main]: the events and the exit status of the process, if it ends. *)
Definition main (env : Env) : list Event * option Z :=
  let tr :=
    match godotenv_Load env with
    | Some e => [EvLog "Warning: Could not load .env file: %v"]
    | None => []
    end in
  match run env with
  | (tr', Returned None) => (tr ++ tr', Some 0)
  | (tr', Returned (Some e)) => (tr ++ tr' ++ [EvFatal "" e], Some 1)
  | (tr', Exited code) => (tr ++ tr', Some code)
  | (tr', Blocked) => (tr ++ tr', None)
  end.

(** Whether [e] is [target] or has it among the errors it joins
    ([errors.Is] on the tree that [joinError] spans). *)
Fixpoint error_eqb (a b : error) {struct a} : bool :=
  match a, b with
  | errorString m, errorString m' => String.eqb m m'
  | SyntaxError, SyntaxError => true
  | UnmarshalTypeError v f, UnmarshalTypeError v' f' =>
      String.eqb v v' && String.eqb f f'
  | joinError es, joinError es' =>
      (fix all2 (l l' : list error) {struct l} : bool :=
         match l, l' with
         | [], [] => true
         | x :: r, y :: r' => error_eqb x y && all2 r r'
         | _, _ => false
         end) es es'
  | _, _ => false
  end.

Fixpoint contains (e target : error) {struct e} : bool :=
  error_eqb e target ||
  match e with
  | joinError es =>
      (fix any (l : list error) : bool :=
         match l with
         | [] => false
         | x :: r => contains x target || any r
         end) es
  | _ => false
  end.

(** *** Writing request bodies

    The bytes of [s], with every apostrophe replaced by a double quote. *)
Definition body_of (s : string) : list byte :=
  map (fun b => if Byte.eqb b "'" then x22 else b) (list_byte_of_string s).

Definition post (data : list byte) : http.Request :=
  {| http.Method := http.MethodPost;
     http.Body := {| io.content := data; io.failure := None |} |}.

(** The provider that does nothing (the API's default before an SDK is
    installed). *)
#[export] Instance noop : Telemetry unit :=
  {| tracer_Start := fun _ t => t;
     span_End := fun t => t;
     span_RecordError := fun _ t => t;
     span_AddEvent := fun _ _ t => t;
     histogram_Record := fun _ _ _ t => t;
     log_Printf := fun _ t => t |}.

(** ** Vocabulary of the properties *)

(** *** Decoding *)

(** A JSON value that a field accepts: null for every field, a string for a
    string field, a number literal that [ParseInt] (for an int field) or
    [ParseFloat] (for a float64 field) converts. *)
Definition fits {T : Type} (f : json.field T) (v : json.Value) : bool :=
  match v, json.setter f with
  | json.JNull, _ => true
  | json.JString _, json.StringField _ => true
  | json.JNumber lit, json.IntField _ =>
      match strconv.ParseInt lit 64 with Some _ => true | None => false end
  | json.JNumber lit, json.Float64Field _ =>
      match strconv.ParseFloat lit with Some _ => true | None => false end
  | _, _ => false
  end.

Definition member_fits {T : Type} (fields : list (json.field T))
  (kv : string * json.Value) : bool :=
  match json.find_field fields (fst kv) with
  | Some f => fits f (snd kv)
  | None => true
  end.

(** The documents that decode into the struct without an error: null, and
    the objects whose members that name a field hold a value the field
    accepts. *)
Definition decodable {T : Type} (fields : list (json.field T))
  (doc : json.Value) : bool :=
  match doc with
  | json.JNull => true
  | json.JObject members => forallb (member_fits fields) members
  | _ => false
  end.

(** The members of a document, if it is an object. *)
Definition members_of (doc : json.Value) : list (string * json.Value) :=
  match doc with
  | json.JObject members => members
  | _ => []
  end.

(** No member of the document names the field called [n]. *)
Definition absent {T : Type} (fields : list (json.field T)) (n : string)
  (doc : json.Value) : Prop :=
  forall kv f, In kv (members_of doc) ->
    json.find_field fields (fst kv) = Some f -> json.name f <> n.

(** The value of the field with JSON name [n], as [reflect] would show it. *)
Inductive FieldValue : Type :=
| IntValue (i : Z)
| StringValue (s : string)
| Float64Value (x : float64).

Definition field_value (n : string) (p : WebhookPayload) : option FieldValue :=
  if String.eqb n "result_id" then Some (IntValue (ResultID p))
  else if String.eqb n "site_name" then Some (StringValue (SiteName p))
  else if String.eqb n "service" then Some (StringValue (Service p))
  else if String.eqb n "serverName" then Some (StringValue (ServerName p))
  else if String.eqb n "serverId" then Some (IntValue (ServerID p))
  else if String.eqb n "isp" then Some (StringValue (ISP p))
  else if String.eqb n "ping" then Some (Float64Value (Ping p))
  else if String.eqb n "download" then Some (Float64Value (Download p))
  else if String.eqb n "upload" then Some (Float64Value (Upload p))
  else if String.eqb n "packetLoss" then Some (Float64Value (PacketLoss p))
  else if String.eqb n "speedtest_url" then Some (StringValue (SpeedtestURL p))
  else if String.eqb n "url" then Some (StringValue (URL p))
  else None.

(** *** Requests *)

(** The request is a POST whose body is read to its end. *)
Definition readable_post (r : http.Request) : Prop :=
  http.Method r = http.MethodPost /\ io.failure (http.Body r) = None.

(** The payload the handler decodes from the request, and the error. *)
Definition decoded (r : http.Request) : WebhookPayload * option error :=
  json.Unmarshal WebhookPayload_fields (io.content (http.Body r))
    WebhookPayload_zero.

Definition is_Record (e : Effect) : bool :=
  match e with Record_ _ _ _ => true | _ => false end.

Definition is_Record_of (i : Instrument) (e : Effect) : bool :=
  match e, i with
  | Record_ pingHistogram _ _, pingHistogram => true
  | Record_ downloadHistogram _ _, downloadHistogram => true
  | Record_ uploadHistogram _ _, uploadHistogram => true
  | _, _ => false
  end.

Definition is_SpanStart (e : Effect) : bool :=
  match e with SpanStart _ => true | _ => false end.

Definition is_SpanAddEvent (e : Effect) : bool :=
  match e with SpanAddEvent _ _ => true | _ => false end.

(** The attribute set of the three recordings of a request. *)
Definition metric_attributes (p : WebhookPayload) : list attribute.KeyValue :=
  [ ("server.id", attribute.STRING (strconv.Itoa (ServerID p)));
    ("server.name", attribute.STRING (ServerName p));
    ("isp", attribute.STRING (ISP p)) ].

(** *** Startup *)

(** An optional sign followed by one or more decimal digits. *)
Definition is_decimal_integer (s : string) : bool :=
  match list_byte_of_string s with
  | [] => false
  | c :: rest =>
      let ds := if Byte.eqb c "+" || Byte.eqb c "-" then rest else c :: rest in
      match ds with
      | [] => false
      | _ => forallb strconv.is_digit ds
      end
  end.




Definition is_listen (ev : Event) : bool :=
  match ev with EvListenAndServe _ => true | _ => false end.

(** The events by which the HTTP server comes to exist and to listen. *)
Definition is_server_event (ev : Event) : bool :=
  match ev with
  | EvHandle _ | EvNewServer _ | EvListenAndServe _ => true
  | _ => false
  end.

(** In [tr] an event satisfying [P] is followed, later, by one satisfying
    [Q]. *)
Definition occurs_before (P Q : Event -> bool) (tr : list Event) : Prop :=
  exists l1 a l2 b l3,
    tr = l1 ++ a :: l2 ++ b :: l3 /\ P a = true /\ Q b = true.

Fixpoint occurs_beforeb (P Q : Event -> bool) (tr : list Event) : bool :=
  match tr with
  | [] => false
  | a :: rest => (P a && existsb Q rest) || occurs_beforeb P Q rest
  end.

(** The three instruments: name, description, unit. *)
Definition instruments : list (string * string * string) :=
  [ ("speedtest.ping", "Ping latency", "ms");
    ("speedtest.download", "Download speed", "bps");
    ("speedtest.upload", "Upload speed", "bps") ].


(** [x] is exactly the rational number [num / den], for [den > 0]. *)
Definition float64_exactly (x : float64) (num den : Z) : bool :=
  match x with
  | S754_zero _ => num =? 0
  | S754_finite s m e =>
      let v := if s then Z.neg m else Z.pos m in
      if 0 <=? e then v * 2 ^ e * den =? num
      else v * den =? num * 2 ^ (- e)
  | _ => false
  end.

(** The body of the example request of the README. *)
Definition example_body : list byte :=
  body_of "{'result_id':123,'serverId':456,'serverName':'Test Server','isp':'Example ISP','ping':25.5,'download':100000000,'upload':50000000}".

(** The attributes of the span event of a request. *)
Definition event_attributes (p : WebhookPayload) : list attribute.KeyValue :=
  [ ("result_id", attribute.INT64 (ResultID p));
    ("site_name", attribute.STRING (SiteName p));
    ("service", attribute.STRING (Service p));
    ("server.name", attribute.STRING (ServerName p));
    ("server.id", attribute.INT64 (ServerID p));
    ("isp", attribute.STRING (ISP p));
    ("ping", attribute.FLOAT64 (Ping p));
    ("download.bps", attribute.FLOAT64 (Download p));
    ("upload.bps", attribute.FLOAT64 (Upload p));
    ("packet.loss", attribute.FLOAT64 (PacketLoss p));
    ("speedtest.url", attribute.STRING (SpeedtestURL p)) ].

(** *** Example environments *)

(** The bootstrap succeeds and the server serves until a signal stops it;
    [flush] is the error of the telemetry shutdown, [ping] the error of the
    creation of the ping histogram, [close] the error of [server.Shutdown],
    [port] the value of STW_SERVER_PORT. *)
Definition env_with (flush ping close : option error) (port : string) : Env :=
  {| godotenv_Load := None;
     setupOTelSDK := None;
     otelShutdown := flush;
     Float64Histogram :=
       fun n => if String.eqb n "speedtest.ping" then ping else None;
     Getenv := fun k => if String.eqb k "STW_SERVER_PORT" then port else "";
     ListenAndServe := None;
     Stop := true;
     Shutdown := close |}.

Definition flush_error : error := errorString "flush failed".

Definition close_error : error := errorString "close failed".

(** The setter of a field changes no field of another name. *)
Definition setter_preserves (n : string) (g : json.field WebhookPayload) : Prop :=
  match json.setter g with
  | json.IntField set => forall x p, field_value n (set x p) = field_value n p
  | json.StringField set => forall x p, field_value n (set x p) = field_value n p
  | json.Float64Field set => forall x p, field_value n (set x p) = field_value n p
  end.

(** ** More of package main *)

(** *** [apiKeyCredentials] *)

Record apiKeyCredentials : Type := { apiKey : string }.

(** [GetRequestMetadata(ctx, uri...)]: the metadata map, as the list of its
    entries, and the error. *)
Definition GetRequestMetadata (a : apiKeyCredentials) (uri : list string)
  : list (string * string) * option error :=
  ([("api-key", apiKey a)], None).

Definition RequireTransportSecurity (a : apiKeyCredentials) : bool := true.

(** ** More vocabulary *)

Definition is_SpanEnd (e : Effect) : bool :=
  match e with SpanEnd => true | _ => false end.

Definition is_RecordError (e : Effect) : bool :=
  match e with SpanRecordError _ => true | _ => false end.

Definition is_LogPrintf (e : Effect) : bool :=
  match e with LogPrintf _ => true | _ => false end.

(** Zeros and finite numbers: no infinity, no NaN. *)
Definition is_finite (x : float64) : bool :=
  match x with
  | S754_zero _ | S754_finite _ _ _ => true
  | _ => false
  end.

(** The values of a 64-bit [int]. *)
Definition in_int64 (n : Z) : Prop := - 2 ^ 63 <= n < 2 ^ 63.

(** A payload whose integers are 64-bit values and whose floats are
    finite. *)
Definition well_formed (p : WebhookPayload) : Prop :=
  in_int64 (ResultID p) /\ in_int64 (ServerID p) /\
  is_finite (Ping p) = true /\ is_finite (Download p) = true /\
  is_finite (Upload p) = true /\ is_finite (PacketLoss p) = true.

(** The setter of a field keeps [P] when it is given a value the decoder
    can produce. *)
Definition setter_respects {T : Type} (P : T -> Prop) (g : json.field T)
  : Prop :=
  match json.setter g with
  | json.IntField set => forall n p, in_int64 n -> P p -> P (set n p)
  | json.StringField set => forall s p, P p -> P (set s p)
  | json.Float64Field set =>
      forall x p, is_finite x = true -> P p -> P (set x p)
  end.

(** What a member's value becomes in a field that accepts it. *)
Definition converted {T : Type} (f : json.field T) (v : json.Value)
  : option FieldValue :=
  match v, json.setter f with
  | json.JString s, json.StringField _ => Some (StringValue s)
  | json.JNumber lit, json.IntField _ =>
      option_map IntValue (strconv.ParseInt lit 64)
  | json.JNumber lit, json.Float64Field _ =>
      option_map Float64Value (strconv.ParseFloat lit)
  | _, _ => None
  end.



Definition is_otelShutdown (ev : Event) : bool :=
  match ev with EvOtelShutdown => true | _ => false end.

Definition is_cancel (ev : Event) : bool :=
  match ev with EvCancel => true | _ => false end.

Definition is_serverShutdown (ev : Event) : bool :=
  match ev with EvServerShutdown _ => true | _ => false end.

Definition STW_SERVER_PORT (env : Env) : string :=
  Getenv env "STW_SERVER_PORT".

(** Bootstrap and instruments succeed. *)
Definition telemetry_ready (env : Env) : Prop :=
  setupOTelSDK env = None /\
  Float64Histogram env "speedtest.ping" = None /\
  Float64Histogram env "speedtest.download" = None /\
  Float64Histogram env "speedtest.upload" = None.



(** The bytes of the rendering of an unsigned decimal number. *)
Definition uint_bytes (u : Decimal.uint) : list byte :=
  list_byte_of_string (NilEmpty.string_of_uint u).

(** The scanner's state and tokens after the bytes of [s]. *)
Fixpoint lex_run (st : json.lexState) (toks : list json.token)
  (s : list byte) : option (json.lexState * list json.token) :=
  match s with
  | [] => Some (st, toks)
  | c :: rest =>
      match json.lex_step st toks c with
      | Some (st', toks') => lex_run st' toks' rest
      | None => None
      end
  end.

(** The body that gives the result id [m] and the server id [n] in
    decimal. *)
Definition int_body (m n : Z) : list byte :=
  body_of "{'result_id':" ++ list_byte_of_string (strconv.Itoa m)
  ++ body_of ",'serverId':" ++ list_byte_of_string (strconv.Itoa n)
  ++ body_of "}".

(** ** The handler among other requests

    [net/http] serves every request in a goroutine of its own.  The
    goroutines of [webhookHandler] share the four package variables
    [tracer], [pingHistogram], [downloadHistogram] and [uploadHistogram],
    which [run] assigns before it creates the server and nothing assigns
    afterwards, and the telemetry provider behind them; the response writer
    and the request belong to one goroutine alone.  Between two calls of one
    goroutine the others may make any number of calls.

    For this the handler is written once more, call by call, as what is
    left to do of one activation.  [tracer.Start] hands a context and a span
    back to the handler, and a handler is free to look at both. *)

Module trace.

(** What the holder of a span can read of it. *)
Record Span : Type := { SpanID : Z; IsRecording : bool }.

End trace.

Module context.

(** What the holder of a context can read of it. *)
Record Context : Type := { Err : option error; Span : trace.Span }.

End context.

(** Whether each package variable has been assigned.  A variable that was
    never assigned holds nil, and a method call on it panics.  What an
    assigned variable holds is the provider's: every call names the variable
    it goes through. *)
Record Globals : Type := { tracer : bool; histogram : Instrument -> bool }.

Definition Globals_zero : Globals :=
  {| tracer := false; histogram := fun _ => false |}.

Definition assigned (g : Globals) : bool :=
  tracer g && histogram g pingHistogram && histogram g downloadHistogram
  && histogram g uploadHistogram.

(** The calls that return nothing to the handler. *)
Inductive Call : Type :=
| CallEnd (span : trace.Span)
| CallRecordError (span : trace.Span) (e : error)
| CallAddEvent (span : trace.Span) (name : string)
    (attrs : list attribute.KeyValue)
| CallRecord (i : Instrument) (ctx : context.Context) (value : float64)
    (attrs : list attribute.KeyValue)
| CallPrintf (msg : string).

(** What is left to do of one activation of the handler: it has returned,
    leaving [w] as the response; or it has panicked ([net/http] recovers the
    panic and closes the connection without a response); or its next step is
    [tracer.Start], whose results it goes on with; or its next step is
    another call. *)
Inductive Goroutine : Type :=
| Responded (w : http.ResponseWriter)
| Panicked
| Start (spanName : string) (k : context.Context * trace.Span -> Goroutine)
| Do (c : Call) (k : Goroutine).

(** [h.Record(ctx, value, opts)] through the variable [i].  On a nil
    variable the call panics, and the deferred [span.End()] runs before the
    panic leaves the handler. *)
Definition Record_through (g : Globals) (i : Instrument)
  (ctx : context.Context) (span : trace.Span) (value : float64)
  (attrs : list attribute.KeyValue) (k : Goroutine) : Goroutine :=
  if histogram g i then Do (CallRecord i ctx value attrs) k
  else Do (CallEnd span) Panicked.

(** [webhookHandler], call by call. *)
Definition webhookHandler_goroutine (g : Globals)
  (w : http.ResponseWriter) (r : http.Request) : Goroutine :=
  if negb (String.eqb (http.Method r) http.MethodPost) then
    Responded (http.Error w "Method not allowed" http.StatusMethodNotAllowed)
  else if negb (tracer g) then Panicked
  else
    Start "handleWebhookRequest" (fun started =>
      let '(ctx, span) := started in
      (* defer span.End(): every exit below ends the span last *)
      let '(body, err) := io.ReadAll (http.Body r) in
      match err with
      | Some e =>
          Do (CallRecordError span e)
            (let w := http.Error w "Error reading request body"
                        http.StatusInternalServerError in
             Do (CallEnd span) (Responded w))
      | None =>
          let '(payload, err) :=
            json.Unmarshal WebhookPayload_fields body WebhookPayload_zero in
          match err with
          | Some e =>
              Do (CallRecordError span e)
                (let w := http.Error w "Error parsing JSON payload"
                            http.StatusBadRequest in
                 Do (CallEnd span) (Responded w))
          | None =>
              Do (CallPrintf
                    ("Received speedtest result for server ID: "
                     ++ strconv.Itoa (ServerID payload))%string)
                (let metricOpts :=
                   [ attribute.String "server.id"
                       (strconv.Itoa (ServerID payload));
                     attribute.String "server.name" (ServerName payload);
                     attribute.String "isp" (ISP payload) ] in
                 Record_through g pingHistogram ctx span (Ping payload)
                   metricOpts
                   (Record_through g downloadHistogram ctx span
                      (Download payload) metricOpts
                      (Record_through g uploadHistogram ctx span
                         (Upload payload) metricOpts
                         (Do (CallAddEvent span "speedtest.result"
                                [ attribute.Int "result_id" (ResultID payload);
                                  attribute.String "site_name" (SiteName payload);
                                  attribute.String "service" (Service payload);
                                  attribute.String "server.name" (ServerName payload);
                                  attribute.Int "server.id" (ServerID payload);
                                  attribute.String "isp" (ISP payload);
                                  attribute.Float64 "ping" (Ping payload);
                                  attribute.Float64 "download.bps" (Download payload);
                                  attribute.Float64 "upload.bps" (Upload payload);
                                  attribute.Float64 "packet.loss" (PacketLoss payload);
                                  attribute.String "speedtest.url"
                                    (SpeedtestURL payload) ])
                            (let w := http.WriteHeader http.StatusOK w in
                             let w := http.Fprintln w
                                        "Webhook received and processed." in
                             Do (CallEnd span) (Responded w))))))
          end
      end).

(** The calls the handler makes on its longest path. *)
Definition handler_calls : nat := 7.

(** A telemetry provider shared by the goroutines: its state, what
    [tracer.Start] hands back in a state, and how each call changes the
    state. *)
Record Provider (S : Type) : Type :=
  { provider_Start : string -> S -> context.Context * trace.Span * S;
    provider_Call : Call -> S -> S }.

Arguments provider_Start {S} _ _ _.
Arguments provider_Call {S} _ _ _.

(** One step of a goroutine: its next call. *)
Definition step {S : Type} (P : Provider S) (p : Goroutine) (s : S)
  : Goroutine * S :=
  match p with
  | Responded _ | Panicked => (p, s)
  | Start name k =>
      let '(ctx, span, s') := provider_Start P name s in (k (ctx, span), s')
  | Do c k => (k, provider_Call P c s)
  end.

Fixpoint set_nth {A : Type} (i : nat) (x : A) (l : list A) : list A :=
  match l, i with
  | [], _ => []
  | _ :: rest, O => x :: rest
  | a :: rest, S j => a :: set_nth j x rest
  end.

(** The goroutines of the requests [requests], all on the variables [g]. *)
Definition accept (g : Globals)
  (requests : list (http.ResponseWriter * http.Request)) : list Goroutine :=
  map (fun wr => webhookHandler_goroutine g (fst wr) (snd wr)) requests.

(** An execution of the server: each number of [schedule] names the
    goroutine that makes its next call.  A goroutine that is named before
    another one is named at all is a prior request of the other; goroutines
    named by turns are concurrent requests. *)
Fixpoint serve {S : Type} (P : Provider S) (schedule : list nat)
  (pool : list Goroutine) (s : S) : list Goroutine * S :=
  match schedule with
  | [] => (pool, s)
  | i :: rest =>
      match nth_error pool i with
      | None => serve P rest pool s
      | Some p =>
          let '(p', s') := step P p s in serve P rest (set_nth i p' pool) s'
      end
  end.

(** How many turns the goroutine [i] gets in [schedule]. *)
Definition turns (i : nat) (schedule : list nat) : nat :=
  List.length (filter (Nat.eqb i) schedule).

(** A goroutine that has the provider to itself, run to its end. *)
Fixpoint complete {S : Type} (P : Provider S) (p : Goroutine) (s : S)
  : option http.ResponseWriter * S :=
  match p with
  | Responded w => (Some w, s)
  | Panicked => (None, s)
  | Start name k =>
      let '(ctx, span, s') := provider_Start P name s in
      complete P (k (ctx, span)) s'
  | Do c k => complete P k (provider_Call P c s)
  end.

(** A provider in the sense of [Telemetry], which hands back the same
    context and span at every start. *)
Definition provider_of {T : Type} `{Telemetry T}
  (ctx : context.Context) (span : trace.Span) : Provider T :=
  {| provider_Start := fun name t => (ctx, span, tracer_Start name t);
     provider_Call := fun c t =>
       match c with
       | CallEnd _ => span_End t
       | CallRecordError _ e => span_RecordError e t
       | CallAddEvent _ name attrs => span_AddEvent name attrs t
       | CallRecord i _ value attrs => histogram_Record i value attrs t
       | CallPrintf msg => log_Printf msg t
       end |}.

(** A provider that numbers its spans by the calls made so far; only the
    spans numbered below 3 record. *)
Definition numbering : Provider Z :=
  {| provider_Start := fun _ n =>
       ({| context.Err := None;
           context.Span := {| trace.SpanID := n;
                              trace.IsRecording := n <? 3 |} |},
        {| trace.SpanID := n; trace.IsRecording := n <? 3 |},
        n + 1);
     provider_Call := fun _ n => n + 1 |}.

Definition background : context.Context :=
  {| context.Err := None;
     context.Span := {| trace.SpanID := 0; trace.IsRecording := false |} |}.

(** Every way the goroutine [p] can go on ends in a panic or with the
    response [w]. *)
Fixpoint responds_only (w : http.ResponseWriter) (p : Goroutine) : Prop :=
  match p with
  | Responded w' => w' = w
  | Panicked => True
  | Start _ k => forall started, responds_only w (k started)
  | Do _ k => responds_only w k
  end.

(** Every way the goroutine [p] can go on ends with the response [w], after
    [n] calls at most. *)
Fixpoint responds_within (n : nat) (w : http.ResponseWriter) (p : Goroutine)
  {struct p} : Prop :=
  match p with
  | Responded w' => w' = w
  | Panicked => False
  | Start _ k =>
      match n with
      | O => False
      | S m => forall started, responds_within m w (k started)
      end
  | Do _ k =>
      match n with
      | O => False
      | S m => responds_within m w k
      end
  end.

(** The variable to which [run] assigns the instrument of that name. *)
Definition variable_of (name : string) : option Instrument :=
  if String.eqb name "speedtest.ping" then Some pingHistogram
  else if String.eqb name "speedtest.download" then Some downloadHistogram
  else if String.eqb name "speedtest.upload" then Some uploadHistogram
  else None.

Definition Instrument_eqb (i j : Instrument) : bool :=
  match i, j with
  | pingHistogram, pingHistogram
  | downloadHistogram, downloadHistogram
  | uploadHistogram, uploadHistogram => true
  | _, _ => false
  end.

(** The assignment that goes with a call of [run]:
    [tracer = otel.Tracer(name)] and
    [pingHistogram, err = meter.Float64Histogram(name, ...)].  With an error
    the variable is taken to stay nil; the process then ends before any
    request is served. *)
Definition assign (env : Env) (g : Globals) (ev : Event) : Globals :=
  match ev with
  | EvTracer _ => {| tracer := true; histogram := histogram g |}
  | EvFloat64Histogram name _ _ =>
      match variable_of name, Float64Histogram env name with
      | Some i, None =>
          {| tracer := tracer g;
             histogram := fun j => Instrument_eqb i j || histogram g j |}
      | _, _ => g
      end
  | _ => g
  end.

(** The calls of [tr] before the first one that [P] holds of. *)
Fixpoint events_before (P : Event -> bool) (tr : list Event) : list Event :=
  match tr with
  | [] => []
  | ev :: rest => if P ev then [] else ev :: events_before P rest
  end.

(** The package variables after the calls [tr] of [run]. *)
Definition globals_after (env : Env) (tr : list Event) : Globals :=
  fold_left (assign env) tr Globals_zero.

(** * Properties *)

(** ** The library models on known inputs *)

Example Atoi_examples :
  map strconv.Atoi ["1214"; "+80"; "-0"; "80a"; " 80"; ""; "-";
                    "9223372036854775807"; "9223372036854775808"]
  = [Some 1214; Some 80; Some 0; None; None; None; None;
     Some 9223372036854775807; None].
Proof. vm_compute. reflexivity. Qed.

Example Itoa_examples :
  map strconv.Itoa [456; 0; -12] = ["456"; "0"; "-12"].
Proof. vm_compute. reflexivity. Qed.

(** 0.1 is rounded to 0x1.999999999999ap-4, 2^53 + 1 to the even 2^53, the
    largest finite double is reached, and what rounds beyond it is a range
    error; what is below half the smallest subnormal is zero. *)
Example ParseFloat_examples :
  map strconv.ParseFloat
    ["0.1"; "9007199254740993"; "1.7976931348623157e308"; "1.8e308";
     "2.4703282292062327e-324"; "4.9e-324"; "-0"; "1e"]
  = [Some (S754_finite false 7205759403792794 (-56));
     Some (S754_finite false 4503599627370496 1);
     Some (S754_finite false 9007199254740991 971);
     None;
     Some (S754_zero false);
     Some (S754_finite false 1 (-1074));
     Some (S754_zero true);
     None].
Proof. vm_compute. reflexivity. Qed.

Example checkValid_examples :
  map (fun s => json.checkValid (body_of s))
    ["{}"; "null"; " [1, 2.5e3, true] "; "{'a':{'b':[]}}"; "'\ud83d'";
     ""; "not json"; "01"; "1."; "[1,]"; "{'a':1,}"; "{'a'}"; "'\x'"; "[1 2]";
     "{} {}"]
  = [true; true; true; true; true;
     false; false; false; false; false; false; false; false; false; false].
Proof. vm_compute. reflexivity. Qed.

(** A surrogate pair becomes one rune, a surrogate without partner becomes
    U+FFFD (EF BF BD), an escape of a rune below U+0800 two bytes. *)
Example unquote_example :
  json.parse (body_of "'\ud83d\ude00 \ud83d A\u00e9'")
  = Some (json.JString
            (string_of_list_byte
               (map byte_of_code
                  [240; 159; 152; 128; 32; 239; 191; 189; 32; 65; 195; 169]))).
Proof. vm_compute. reflexivity. Qed.

(** Keys match the struct tags without regard to case, the last of several
    members for one field wins, and a null leaves the field as it is. *)
Example Unmarshal_folds_keys :
  decoded (post (body_of "{'SERVERID':7,'serverid':8,'Isp':'x','ISP':null}"))
  = (set_ISP "x" (set_ServerID 8 WebhookPayload_zero), None).
Proof. vm_compute. reflexivity. Qed.

(** The first error is the one returned, and decoding goes on after it. *)
Example Unmarshal_first_error :
  decoded (post (body_of "{'ping':true,'serverId':1.5,'isp':'x'}"))
  = (set_ISP "x" WebhookPayload_zero, Some (UnmarshalTypeError "bool" "ping")).
Proof. vm_compute. reflexivity. Qed.

(** ** The handler's response, for any provider *)

Lemma method_not_post (r : http.Request) :
  http.Method r <> http.MethodPost ->
  negb (String.eqb (http.Method r) http.MethodPost) = true.
Proof.
  intros Hm. destruct (String.eqb_spec (http.Method r) http.MethodPost);
    [contradiction | reflexivity].
Qed.

Lemma method_post (r : http.Request) :
  http.Method r = http.MethodPost ->
  negb (String.eqb (http.Method r) http.MethodPost) = false.
Proof. intros ->. reflexivity. Qed.

Section Response.

Context {T : Type} `{Telemetry T}.

(** C3. The status of the response follows the case split: 405 for a method
    other than POST, 500 when the body cannot be read, 400 when
    [json.Unmarshal] returns an error, and otherwise 200 with the
    confirmation line as body. *)
Theorem webhookHandler_status (r : http.Request) (t : T) :
  let w := fst (webhookHandler http.newResponse r t) in
  (http.Method r <> http.MethodPost ->
   http.Status w = Some http.StatusMethodNotAllowed) /\
  (http.Method r = http.MethodPost -> io.failure (http.Body r) <> None ->
   http.Status w = Some http.StatusInternalServerError) /\
  (readable_post r -> snd (decoded r) <> None ->
   http.Status w = Some http.StatusBadRequest) /\
  (readable_post r -> snd (decoded r) = None ->
   http.Status w = Some http.StatusOK /\
   http.Written w = ("Webhook received and processed." ++ http.newline)%string).
Proof.
  unfold readable_post, decoded. cbv zeta.
  unfold webhookHandler, io.ReadAll.
  split; [|split; [|split]].
  - intros Hm. rewrite (method_not_post r Hm). reflexivity.
  - intros Hm Hf. rewrite (method_post r Hm).
    destruct (io.failure (http.Body r)); [reflexivity | congruence].
  - intros [Hm Hf] He. rewrite (method_post r Hm), Hf.
    destruct (json.Unmarshal _ _ _) as [p [e|]]; [reflexivity | contradiction].
  - intros [Hm Hf] He. rewrite (method_post r Hm), Hf.
    destruct (json.Unmarshal _ _ _) as [p [e|]]; [discriminate | split; reflexivity].
Qed.

End Response.

Lemma webhookHandler_status_witness :
  http.Status
    (fst (webhookHandler http.newResponse (post example_body) ([] : list Effect)))
  = Some http.StatusOK /\
  http.Written
    (fst (webhookHandler http.newResponse (post example_body) ([] : list Effect)))
  = ("Webhook received and processed." ++ http.newline)%string.
Proof.
  apply (proj2 (proj2 (proj2
           (webhookHandler_status (post example_body) ([] : list Effect))))).
  - split; reflexivity.
  - vm_compute. reflexivity.
Defined.

(** ** The response among other requests *)

(** The response is a function of the method and of the bytes of the
    body, whatever the two providers and their states are. *)
Lemma webhookHandler_response_of_bytes
  (T1 T2 : Type) (P1 : Telemetry T1) (P2 : Telemetry T2)
  (w : http.ResponseWriter) (r1 r2 : http.Request) (t1 : T1) (t2 : T2) :
  http.Method r1 = http.Method r2 ->
  io.content (http.Body r1) = io.content (http.Body r2) ->
  io.failure (http.Body r1) = None ->
  io.failure (http.Body r2) = None ->
  fst (webhookHandler w r1 t1) = fst (webhookHandler w r2 t2).
Proof.
  intros Hm Hc Hf1 Hf2. unfold webhookHandler, io.ReadAll.
  rewrite Hm, Hc, Hf1, Hf2.
  destruct (negb (http.Method r2 =? http.MethodPost)%string); [reflexivity|].
  destruct (json.Unmarshal _ _ _) as [p [e|]]; reflexivity.
Qed.

Lemma nth_error_set_nth_same {A : Type} (l : list A) (i : nat) (x y : A) :
  nth_error l i = Some y -> nth_error (set_nth i x l) i = Some x.
Proof.
  revert i. induction l as [|a l IH]; intros [|i]; simpl; try discriminate.
  - reflexivity.
  - apply IH.
Qed.

Lemma nth_error_set_nth_other {A : Type} (l : list A) (i j : nat) (x : A) :
  i <> j -> nth_error (set_nth j x l) i = nth_error l i.
Proof.
  revert i j. induction l as [|a l IH]; intros [|i] [|j] Hij; simpl;
    try reflexivity; try contradiction.
  apply IH. congruence.
Qed.

Lemma turns_cons_same (i : nat) (schedule : list nat) :
  turns i (i :: schedule) = S (turns i schedule).
Proof. unfold turns. simpl. rewrite Nat.eqb_refl. reflexivity. Qed.

Lemma turns_cons_other (i j : nat) (schedule : list nat) :
  i <> j -> turns i (j :: schedule) = turns i schedule.
Proof.
  intros Hij. unfold turns. simpl.
  destruct (Nat.eqb_spec i j); [contradiction | reflexivity].
Qed.

Section Pool.

Context {St : Type} (P : Provider St).

(** A call of a goroutine leaves the responses it can still give among
    those it could give before. *)
Lemma step_responds_only (w : http.ResponseWriter) (p : Goroutine) (s : St) :
  responds_only w p -> responds_only w (fst (step P p s)).
Proof.
  destruct p as [w'| |name k|c k]; simpl; try tauto.
  intros Hk. destruct (provider_Start P name s) as [[ctx span] s'].
  apply Hk.
Qed.

Lemma step_responds_within (n : nat) (w : http.ResponseWriter)
  (p : Goroutine) (s : St) :
  responds_within n w p -> responds_within (n - 1) w (fst (step P p s)).
Proof.
  destruct p as [w'| |name k|c k]; simpl; try tauto.
  - destruct n as [|n]; [tauto|].
    replace (S n - 1)%nat with n by lia.
    intros Hk. destruct (provider_Start P name s) as [[ctx span] s'].
    apply Hk.
  - destruct n as [|n]; [tauto|].
    replace (S n - 1)%nat with n by lia. tauto.
Qed.

Lemma responds_within_0 (w : http.ResponseWriter) (p : Goroutine) :
  responds_within 0 w p -> p = Responded w.
Proof. destruct p; simpl; try tauto. intros ->. reflexivity. Qed.

(** Whatever the schedule and the other goroutines are, a goroutine stays
    in the pool, and stays among the goroutines that can only give the
    response [w]. *)
Lemma serve_responds_only (w : http.ResponseWriter) (i : nat)
  (schedule : list nat) :
  forall (pool : list Goroutine) (s : St) (p : Goroutine),
    nth_error pool i = Some p -> responds_only w p ->
    exists p', nth_error (fst (serve P schedule pool s)) i = Some p' /\
               responds_only w p'.
Proof.
  induction schedule as [|j schedule IH]; intros pool s p Hp Hw; simpl.
  - exists p. tauto.
  - destruct (nth_error pool j) as [q|] eqn:Hq; [|exact (IH pool s p Hp Hw)].
    pose proof (step_responds_only w q s) as Hstep.
    destruct (step P q s) as [q' s'] eqn:Es. cbn [fst] in Hstep.
    destruct (Nat.eq_dec i j) as [->|Hij].
    + rewrite Hp in Hq. injection Hq as <-.
      apply (IH _ s' q').
      * exact (nth_error_set_nth_same pool j q' p Hp).
      * exact (Hstep Hw).
    + apply (IH _ s' p); [|exact Hw].
      rewrite (nth_error_set_nth_other pool i j q' Hij). exact Hp.
Qed.

(** Every turn of a goroutine brings it one call nearer to its response,
    and the turns of the others take nothing away. *)
Lemma serve_responds_within (w : http.ResponseWriter) (i : nat)
  (schedule : list nat) :
  forall (n : nat) (pool : list Goroutine) (s : St) (p : Goroutine),
    nth_error pool i = Some p -> responds_within n w p ->
    exists p', nth_error (fst (serve P schedule pool s)) i = Some p' /\
               responds_within (n - turns i schedule) w p'.
Proof.
  induction schedule as [|j schedule IH]; intros n pool s p Hp Hw; simpl.
  - exists p. unfold turns. simpl. rewrite Nat.sub_0_r. tauto.
  - destruct (Nat.eq_dec i j) as [->|Hij].
    + rewrite Hp. rewrite turns_cons_same.
      pose proof (step_responds_within n w p s Hw) as Hstep.
      destruct (step P p s) as [q' s'] eqn:Es. cbn [fst] in Hstep.
      destruct (IH (n - 1)%nat (set_nth j q' pool) s' q'
                  (nth_error_set_nth_same pool j q' p Hp) Hstep)
        as [p' [Hp' Hw']].
      exists p'. split; [exact Hp'|].
      replace (n - S (turns j schedule))%nat
        with (n - 1 - turns j schedule)%nat by lia.
      exact Hw'.
    + rewrite (turns_cons_other i j schedule Hij).
      destruct (nth_error pool j) as [q|] eqn:Hq; [|exact (IH n pool s p Hp Hw)].
      destruct (step P q s) as [q' s'] eqn:Es.
      apply (IH n _ s' p); [|exact Hw].
      rewrite (nth_error_set_nth_other pool i j q' Hij). exact Hp.
Qed.

End Pool.

(** The only response that an activation of the handler can give is the
    response of [webhookHandler], whatever the package variables hold and
    whatever [tracer.Start] hands back. *)
Lemma goroutine_responds_only (g : Globals) (w : http.ResponseWriter)
  (r : http.Request) :
  responds_only (fst (webhookHandler w r tt)) (webhookHandler_goroutine g w r).
Proof.
  unfold webhookHandler, webhookHandler_goroutine, io.ReadAll, Record_through.
  destruct (negb (http.Method r =? http.MethodPost)%string); [reflexivity|].
  destruct (negb (tracer g)); [exact I|].
  intros [ctx span].
  destruct (io.failure (http.Body r)) as [e|]; [reflexivity|].
  destruct (json.Unmarshal _ _ _) as [p [e|]]; [reflexivity|].
  cbv zeta.
  destruct (histogram g pingHistogram); [|exact I].
  destruct (histogram g downloadHistogram); [|exact I].
  destruct (histogram g uploadHistogram); [|exact I].
  reflexivity.
Qed.

(** With the four variables assigned the handler responds after seven
    calls at most. *)
Lemma goroutine_responds_within (g : Globals) (w : http.ResponseWriter)
  (r : http.Request) :
  assigned g = true ->
  responds_within handler_calls (fst (webhookHandler w r tt))
    (webhookHandler_goroutine g w r).
Proof.
  unfold assigned. intros Hg.
  apply andb_prop in Hg. destruct Hg as [Hg Hup].
  apply andb_prop in Hg. destruct Hg as [Hg Hdown].
  apply andb_prop in Hg. destruct Hg as [Htr Hping].
  unfold webhookHandler, webhookHandler_goroutine, io.ReadAll, Record_through,
    handler_calls.
  rewrite Htr, Hping, Hdown, Hup.
  destruct (negb (http.Method r =? http.MethodPost)%string); [reflexivity|].
  cbn [negb]. intros [ctx span].
  destruct (io.failure (http.Body r)) as [e|]; [reflexivity|].
  destruct (json.Unmarshal _ _ _) as [p [e|]]; reflexivity.
Qed.

(** The two embeddings of the handler agree: a goroutine that has a
    provider to itself leaves the response and the provider state of
    [webhookHandler]. *)
Lemma goroutine_alone {T : Type} `{Telemetry T} (g : Globals)
  (ctx : context.Context) (span : trace.Span)
  (w : http.ResponseWriter) (r : http.Request) (t : T) :
  assigned g = true ->
  complete (provider_of ctx span) (webhookHandler_goroutine g w r) t
  = (Some (fst (webhookHandler w r t)), snd (webhookHandler w r t)).
Proof.
  unfold assigned. intros Hg.
  apply andb_prop in Hg. destruct Hg as [Hg Hup].
  apply andb_prop in Hg. destruct Hg as [Hg Hdown].
  apply andb_prop in Hg. destruct Hg as [Htr Hping].
  unfold webhookHandler, webhookHandler_goroutine, io.ReadAll, Record_through.
  rewrite Htr, Hping, Hdown, Hup.
  destruct (negb (http.Method r =? http.MethodPost)%string); [reflexivity|].
  cbn [negb complete provider_of provider_Start].
  destruct (io.failure (http.Body r)) as [e|]; [reflexivity|].
  destruct (json.Unmarshal _ _ _) as [p [e|]]; reflexivity.
Qed.

(** While [pingHistogram] is nil a POST that decodes gets no response: the
    handler panics at the first recording, after the log line, and the
    deferred call ends the span. *)
Example nil_histogram_panics :
  complete (provider_of (T := list Effect) background (context.Span background))
    (webhookHandler_goroutine
       {| tracer := true; histogram := fun _ => false |}
       http.newResponse (post example_body)) []
  = (None,
     [ SpanStart "handleWebhookRequest";
       LogPrintf "Received speedtest result for server ID: 456";
       SpanEnd ]).
Proof. vm_compute. reflexivity. Qed.

(** C10. The response to a request depends on its method and on the bytes
    of its body, and on nothing else that happens in the server.  Take two
    executions of the server, each with its own telemetry provider in a
    state of its own, its own package variables, its own other requests
    and its own schedule of the calls of all goroutines (earlier requests
    and requests served at the same time), and in each a request with the
    same method and the same body bytes, read to the end.  If both requests
    are answered, the two responses (status, headers and body) are the
    same.  And the request is answered: with the four package variables
    assigned, as [run] leaves them before the server is created, its
    goroutine has responded once it had the turns for its seven calls. *)
Theorem response_independent_of_other_requests
  (S1 S2 : Type) (P1 : Provider S1) (P2 : Provider S2) (s1 : S1) (s2 : S2)
  (g1 g2 : Globals)
  (requests1 requests2 : list (http.ResponseWriter * http.Request))
  (schedule1 schedule2 : list nat) (i1 i2 : nat)
  (w : http.ResponseWriter) (r1 r2 : http.Request) :
  nth_error requests1 i1 = Some (w, r1) ->
  nth_error requests2 i2 = Some (w, r2) ->
  http.Method r1 = http.Method r2 ->
  io.content (http.Body r1) = io.content (http.Body r2) ->
  io.failure (http.Body r1) = None ->
  io.failure (http.Body r2) = None ->
  (forall w1 w2,
     nth_error (fst (serve P1 schedule1 (accept g1 requests1) s1)) i1
     = Some (Responded w1) ->
     nth_error (fst (serve P2 schedule2 (accept g2 requests2) s2)) i2
     = Some (Responded w2) ->
     w1 = w2) /\
  (assigned g1 = true ->
   (handler_calls <= turns i1 schedule1)%nat ->
   nth_error (fst (serve P1 schedule1 (accept g1 requests1) s1)) i1
   = Some (Responded (fst (webhookHandler w r1 tt)))).
Proof.
  intros Hr1 Hr2 Hm Hc Hf1 Hf2.
  assert (Ha1 : nth_error (accept g1 requests1) i1
                = Some (webhookHandler_goroutine g1 w r1)).
  { unfold accept. rewrite nth_error_map, Hr1. reflexivity. }
  assert (Ha2 : nth_error (accept g2 requests2) i2
                = Some (webhookHandler_goroutine g2 w r2)).
  { unfold accept. rewrite nth_error_map, Hr2. reflexivity. }
  split.
  - intros w1 w2 H1 H2.
    destruct (serve_responds_only P1 _ i1 schedule1 _ s1 _ Ha1
                (goroutine_responds_only g1 w r1)) as [p1 [Hp1 Hw1]].
    destruct (serve_responds_only P2 _ i2 schedule2 _ s2 _ Ha2
                (goroutine_responds_only g2 w r2)) as [p2 [Hp2 Hw2]].
    rewrite H1 in Hp1. injection Hp1 as <-.
    rewrite H2 in Hp2. injection Hp2 as <-.
    simpl in Hw1, Hw2. rewrite Hw1, Hw2.
    exact (webhookHandler_response_of_bytes unit unit noop noop w r1 r2 tt tt
             Hm Hc Hf1 Hf2).
  - intros Hg Hturns.
    destruct (serve_responds_within P1 _ i1 schedule1 handler_calls _ s1 _ Ha1
                (goroutine_responds_within g1 w r1 Hg)) as [p1 [Hp1 Hw1]].
    replace (handler_calls - turns i1 schedule1)%nat with 0%nat in Hw1 by lia.
    rewrite (responds_within_0 _ _ Hw1) in Hp1. exact Hp1.
Qed.

Lemma response_independent_of_other_requests_witness :
  nth_error
    (fst (serve (provider_of (T := list Effect) background
                   (context.Span background))
            [1; 0; 0; 1; 0; 0; 0; 1; 0; 0; 0]%nat
            (accept
               (globals_after (env_with None None None "8080")
                  (fst (run (env_with None None None "8080"))))
               [ (http.newResponse, post example_body);
                 (http.newResponse, post (body_of "not json")) ])
            [])) 0
  = Some (Responded
            (fst (webhookHandler http.newResponse (post example_body) tt))).
Proof.
  refine (proj2 (response_independent_of_other_requests
                   (list Effect) Z
                   (provider_of (T := list Effect) background
                      (context.Span background))
                   numbering [] 0
                   (globals_after (env_with None None None "8080")
                      (fst (run (env_with None None None "8080"))))
                   Globals_zero
                   [ (http.newResponse, post example_body);
                     (http.newResponse, post (body_of "not json")) ]
                   [ (http.newResponse,
                      {| http.Method := "GET";
                         http.Body := {| io.content := []; io.failure := None |} |});
                     (http.newResponse, post example_body) ]
                   [1; 0; 0; 1; 0; 0; 0; 1; 0; 0; 0]%nat [0; 1; 1]%nat
                   0%nat 1%nat
                   http.newResponse (post example_body) (post example_body)
                   _ _ _ _ _ _) _ _).
  - reflexivity.
  - reflexivity.
  - reflexivity.
  - reflexivity.
  - reflexivity.
  - reflexivity.
  - vm_compute. reflexivity.
  - vm_compute. lia.
Defined.

(** ** The handler's calls to the provider *)

(** On the recording provider the handler only appends to the log. *)
Lemma webhookHandler_appends
  (w : http.ResponseWriter) (r : http.Request) (t : list Effect) :
  snd (webhookHandler w r t) = t ++ snd (webhookHandler w r []).
Proof.
  unfold webhookHandler, io.ReadAll.
  destruct (negb (http.Method r =? http.MethodPost)%string);
    [simpl; now rewrite app_nil_r|].
  destruct (io.failure (http.Body r)).
  - simpl. now rewrite <- !app_assoc.
  - destruct (json.Unmarshal _ _ _) as [p [e|]]; simpl;
      now rewrite <- !app_assoc.
Qed.

(** What the handler asks of the provider, case by case. *)
Lemma webhookHandler_effects (w : http.ResponseWriter) (r : http.Request) :
  snd (webhookHandler w r []) =
    if negb (String.eqb (http.Method r) http.MethodPost) then []
    else
      match io.failure (http.Body r) with
      | Some e => [SpanStart "handleWebhookRequest"; SpanRecordError e; SpanEnd]
      | None =>
          match snd (decoded r) with
          | Some e =>
              [SpanStart "handleWebhookRequest"; SpanRecordError e; SpanEnd]
          | None =>
              let p := fst (decoded r) in
              [ SpanStart "handleWebhookRequest";
                LogPrintf ("Received speedtest result for server ID: "
                           ++ strconv.Itoa (ServerID p))%string;
                Record_ pingHistogram (Ping p) (metric_attributes p);
                Record_ downloadHistogram (Download p) (metric_attributes p);
                Record_ uploadHistogram (Upload p) (metric_attributes p);
                SpanAddEvent "speedtest.result" (event_attributes p);
                SpanEnd ]
          end
      end.
Proof.
  unfold webhookHandler, decoded, io.ReadAll.
  destruct (negb (http.Method r =? http.MethodPost)%string); [reflexivity|].
  destruct (io.failure (http.Body r)); [reflexivity|].
  destruct (json.Unmarshal _ _ _) as [p [e|]]; reflexivity.
Qed.

(** C4. A request that is not decoded (its method is not POST, its body
    cannot be read, or [json.Unmarshal] fails) records nothing into the
    histograms; when the method is not POST the handler asks nothing at all
    of the provider, so no span is started. *)
Theorem no_recording_without_decode
  (w : http.ResponseWriter) (r : http.Request) (t : list Effect) :
  http.Method r <> http.MethodPost \/ io.failure (http.Body r) <> None
    \/ snd (decoded r) <> None ->
  exists added,
    snd (webhookHandler w r t) = t ++ added /\
    (forall e, In e added -> is_Record e = false) /\
    (http.Method r <> http.MethodPost ->
     added = [] /\ forall e, In e added -> is_SpanStart e = false).
Proof.
  intros Hcase. exists (snd (webhookHandler w r [])).
  split; [apply webhookHandler_appends|].
  rewrite webhookHandler_effects.
  destruct (String.eqb_spec (http.Method r) http.MethodPost) as [Hm|Hm]; simpl.
  - split; [|intros Hn; contradiction].
    destruct (io.failure (http.Body r)) as [e|].
    + intros x [<-|[<-|[<-|[]]]]; reflexivity.
    + destruct (snd (decoded r)) as [e|].
      * intros x [<-|[<-|[<-|[]]]]; reflexivity.
      * destruct Hcase as [Hc|[Hc|Hc]]; congruence.
  - split; [intros x []|]. intros _. split; [reflexivity | intros x []].
Qed.

Lemma no_recording_without_decode_witness :
  exists added,
    snd (webhookHandler http.newResponse (post (body_of "not json")) [])
      = [] ++ added /\
    (forall e, In e added -> is_Record e = false) /\
    (http.Method (post (body_of "not json")) <> http.MethodPost ->
     added = [] /\ forall e, In e added -> is_SpanStart e = false).
Proof.
  apply (no_recording_without_decode http.newResponse
           (post (body_of "not json")) []).
  right. right. vm_compute. discriminate.
Defined.

(** C5. A POST whose body is read and decoded records exactly one value into
    each histogram: the payload's ping, download and upload, all three with
    the attributes server.id (the decimal rendering of the server id),
    server.name and isp.  For the example body the ping recording is 25.5
    (that is 51/2) with server.id 456, server.name Test Server and isp
    Example ISP. *)
Theorem recordings_of_success :
  (forall (w : http.ResponseWriter) (r : http.Request) (t : list Effect),
     readable_post r -> snd (decoded r) = None ->
     exists added,
       snd (webhookHandler w r t) = t ++ added /\
       filter is_Record added =
         [ Record_ pingHistogram (Ping (fst (decoded r)))
             (metric_attributes (fst (decoded r)));
           Record_ downloadHistogram (Download (fst (decoded r)))
             (metric_attributes (fst (decoded r)));
           Record_ uploadHistogram (Upload (fst (decoded r)))
             (metric_attributes (fst (decoded r))) ]) /\
  (exists x,
     filter (is_Record_of pingHistogram)
       (snd (webhookHandler http.newResponse (post example_body) []))
     = [ Record_ pingHistogram x
           [ ("server.id", attribute.STRING "456");
             ("server.name", attribute.STRING "Test Server");
             ("isp", attribute.STRING "Example ISP") ] ] /\
     float64_exactly x 51 2 = true).
Proof.
  split.
  - intros w r t [Hm Hf] Hd. exists (snd (webhookHandler w r [])).
    split; [apply webhookHandler_appends|].
    rewrite webhookHandler_effects, (method_post r Hm), Hf, Hd. reflexivity.
  - eexists. split; vm_compute; reflexivity.
Qed.

Lemma recordings_of_success_witness :
  exists added,
    snd (webhookHandler http.newResponse (post example_body) []) = [] ++ added /\
    filter is_Record added =
      [ Record_ pingHistogram (Ping (fst (decoded (post example_body))))
          (metric_attributes (fst (decoded (post example_body))));
        Record_ downloadHistogram (Download (fst (decoded (post example_body))))
          (metric_attributes (fst (decoded (post example_body))));
        Record_ uploadHistogram (Upload (fst (decoded (post example_body))))
          (metric_attributes (fst (decoded (post example_body)))) ].
Proof.
  apply (proj1 recordings_of_success http.newResponse (post example_body) []).
  - split; reflexivity.
  - vm_compute. reflexivity.
Defined.

(** C6, as amended.  A POST whose body is read and decoded adds exactly one
    event to its span.  The event carries the payload's result id, site
    name, service name, server name, server id, ISP, ping, download, upload,
    packet loss and result URL; its ping, download and upload are the values
    recorded into the three histograms for the request, and its result id
    is the result id of the payload these values come from. *)
Theorem span_event_of_success
  (w : http.ResponseWriter) (r : http.Request) (t : list Effect) :
  readable_post r -> snd (decoded r) = None ->
  exists added attrs,
    snd (webhookHandler w r t) = t ++ added /\
    filter is_SpanAddEvent added = [SpanAddEvent "speedtest.result" attrs] /\
    attrs = event_attributes (fst (decoded r)) /\
    In ("result_id", attribute.INT64 (ResultID (fst (decoded r)))) attrs /\
    (forall x a, In (Record_ pingHistogram x a) added ->
                 x = Ping (fst (decoded r)) /\
                 In ("ping", attribute.FLOAT64 x) attrs) /\
    (forall x a, In (Record_ downloadHistogram x a) added ->
                 x = Download (fst (decoded r)) /\
                 In ("download.bps", attribute.FLOAT64 x) attrs) /\
    (forall x a, In (Record_ uploadHistogram x a) added ->
                 x = Upload (fst (decoded r)) /\
                 In ("upload.bps", attribute.FLOAT64 x) attrs).
Proof.
  intros [Hm Hf] Hd.
  exists (snd (webhookHandler w r [])), (event_attributes (fst (decoded r))).
  split; [apply webhookHandler_appends|].
  rewrite webhookHandler_effects, (method_post r Hm), Hf, Hd. cbv zeta.
  split; [reflexivity|]. split; [reflexivity|]. split; [simpl; tauto|].
  split; [|split]; intros x a Hin; simpl in Hin;
    repeat (destruct Hin as [Hin|Hin];
            [try discriminate Hin; injection Hin as <- <-|]);
    try contradiction; (split; [reflexivity | simpl; tauto]).
Qed.

Lemma span_event_of_success_witness :
  exists added attrs,
    snd (webhookHandler http.newResponse (post example_body) []) = [] ++ added /\
    filter is_SpanAddEvent added = [SpanAddEvent "speedtest.result" attrs] /\
    attrs = event_attributes (fst (decoded (post example_body))) /\
    In ("result_id",
        attribute.INT64 (ResultID (fst (decoded (post example_body))))) attrs /\
    (forall x a, In (Record_ pingHistogram x a) added ->
                 x = Ping (fst (decoded (post example_body))) /\
                 In ("ping", attribute.FLOAT64 x) attrs) /\
    (forall x a, In (Record_ downloadHistogram x a) added ->
                 x = Download (fst (decoded (post example_body))) /\
                 In ("download.bps", attribute.FLOAT64 x) attrs) /\
    (forall x a, In (Record_ uploadHistogram x a) added ->
                 x = Upload (fst (decoded (post example_body))) /\
                 In ("upload.bps", attribute.FLOAT64 x) attrs).
Proof.
  apply (span_event_of_success http.newResponse (post example_body) []).
  - split; reflexivity.
  - vm_compute. reflexivity.
Defined.

(** C6, as stated, fails: the event of the example request carries the
    result id 123, and nothing recorded into the histograms for that request
    is the result id, neither a value nor an attribute. *)
Lemma result_id_is_no_metric :
  In (SpanAddEvent "speedtest.result"
        (event_attributes (fst (decoded (post example_body)))))
     (snd (webhookHandler http.newResponse (post example_body) [])) /\
  ResultID (fst (decoded (post example_body))) = 123 /\
  forall i x a,
    In (Record_ i x a)
       (snd (webhookHandler http.newResponse (post example_body) [])) ->
    float64_exactly x 123 1 = false /\
    forall k v, In (k, v) a ->
      v <> attribute.INT64 123 /\ v <> attribute.STRING "123".
Proof.
  split; [vm_compute; tauto|]. split; [vm_compute; reflexivity|].
  intros i x a Hin. vm_compute in Hin.
  repeat (destruct Hin as [Hin|Hin]; [try discriminate Hin|]);
    try contradiction;
    injection Hin as <- <- <-; (split; [vm_compute; reflexivity|]);
    intros k v Hkv; simpl in Hkv;
    repeat (destruct Hkv as [Hkv|Hkv]; [injection Hkv as <- <-|]);
    try contradiction; split; discriminate.
Qed.

(** ** Decoding *)

Section Decoding.

Context {T : Type} (fields : list (json.field T)).

Lemma saveError_saved (d : json.decodeState T) (e : error) :
  json.savedError (json.saveError d e) <> None.
Proof.
  unfold json.saveError. destruct (json.savedError d) eqn:E; simpl; congruence.
Qed.

Lemma saveError_target (d : json.decodeState T) (e : error) :
  json.target (json.saveError d e) = json.target d.
Proof.
  unfold json.saveError. destruct (json.savedError d); reflexivity.
Qed.

(** A value stored in a field leaves no error exactly when none was saved
    before and the field accepts the value. *)
Lemma store_ok_iff (f : json.field T) (v : json.Value) (d : json.decodeState T) :
  json.savedError (json.store f v d) = None <->
  json.savedError d = None /\ fits f v = true.
Proof.
  unfold json.store, fits.
  destruct v as [|b|lit|s|es|ms]; destruct (json.setter f) as [set|set|set];
    try destruct (strconv.ParseInt lit 64);
    try destruct (strconv.ParseFloat lit);
    simpl;
    try (split; [intros E; split; [exact E | reflexivity] | intros [E _]; exact E]);
    (split; [intros E; exfalso; exact (saveError_saved _ _ E)
            | intros [_ E]; discriminate]).
Qed.

Lemma object_member_ok_iff (d : json.decodeState T) (kv : string * json.Value) :
  json.savedError (json.object_member fields d kv) = None <->
  json.savedError d = None /\ member_fits fields kv = true.
Proof.
  unfold json.object_member, member_fits.
  destruct (json.find_field fields (fst kv)) as [f|].
  - apply store_ok_iff.
  - tauto.
Qed.

Lemma members_ok_iff (ms : list (string * json.Value)) :
  forall d : json.decodeState T,
    json.savedError (fold_left (json.object_member fields) ms d) = None <->
    json.savedError d = None /\ forallb (member_fits fields) ms = true.
Proof.
  induction ms as [|kv ms IH]; intros d; simpl.
  - tauto.
  - rewrite IH, object_member_ok_iff, andb_true_iff. tauto.
Qed.

Lemma decode_value_ok_iff (doc : json.Value) (v : T) :
  json.savedError
    (json.decode_value fields doc {| json.target := v; json.savedError := None |})
    = None
  <-> decodable fields doc = true.
Proof.
  destruct doc as [|b|lit|s|es|ms]; simpl;
    try (split; [reflexivity | reflexivity]);
    try (split; [intros E; discriminate E | intros E; discriminate E]).
  rewrite members_ok_iff. simpl. tauto.
Qed.

(** [Unmarshal] returns no error exactly on the valid documents that are
    decodable. *)
Lemma Unmarshal_ok_iff (data : list byte) (v : T) :
  snd (json.Unmarshal fields data v) = None <->
  exists doc, json.parse data = Some doc /\ decodable fields doc = true.
Proof.
  unfold json.Unmarshal. destruct (json.parse data) as [doc|]; simpl.
  - rewrite decode_value_ok_iff. split.
    + intros E. exists doc. split; [reflexivity | exact E].
    + intros [doc' [E E']]. injection E as <-. exact E'.
  - split; [discriminate | intros [doc [E _]]; discriminate].
Qed.

Lemma Unmarshal_invalid (data : list byte) (v : T) :
  json.checkValid data = false ->
  json.Unmarshal fields data v = (v, Some SyntaxError).
Proof.
  unfold json.checkValid, json.Unmarshal.
  destruct (json.parse data); [discriminate | reflexivity].
Qed.

Lemma find_field_In (k : string) (f : json.field T) :
  json.find_field fields k = Some f -> In f fields.
Proof.
  unfold json.find_field.
  destruct (find _ fields) as [g|] eqn:E.
  - intros [= <-]. exact (proj1 (find_some _ _ E)).
  - intros E'. exact (proj1 (find_some _ _ E')).
Qed.

End Decoding.

Lemma WebhookPayload_setters (n : string) (g : json.field WebhookPayload) :
  In g WebhookPayload_fields -> json.name g <> n -> setter_preserves n g.
Proof.
  intros Hin Hn. unfold setter_preserves.
  simpl in Hin.
  repeat (destruct Hin as [<-|Hin]);
    try contradiction; simpl in *; intros x p; unfold field_value;
    repeat match goal with
           | |- context [String.eqb n ?s] =>
               destruct (String.eqb_spec n s);
               [subst n; first [reflexivity | exfalso; apply Hn; reflexivity]|]
           end; reflexivity.
Qed.

Lemma store_preserves (n : string) (g : json.field WebhookPayload)
  (v : json.Value) (d : json.decodeState WebhookPayload) :
  In g WebhookPayload_fields -> json.name g <> n ->
  field_value n (json.target (json.store g v d)) = field_value n (json.target d).
Proof.
  intros Hin Hn. pose proof (WebhookPayload_setters n g Hin Hn) as P.
  unfold setter_preserves in P. unfold json.store.
  destruct v as [|b|lit|s|es|ms]; destruct (json.setter g) as [set|set|set];
    try destruct (strconv.ParseInt lit 64);
    try destruct (strconv.ParseFloat lit);
    rewrite ?saveError_target; simpl; try reflexivity; apply P.
Qed.

Lemma members_preserve (n : string) (ms : list (string * json.Value)) :
  forall d : json.decodeState WebhookPayload,
    (forall kv f, In kv ms ->
       json.find_field WebhookPayload_fields (fst kv) = Some f ->
       json.name f <> n) ->
    field_value n
      (json.target (fold_left (json.object_member WebhookPayload_fields) ms d))
    = field_value n (json.target d).
Proof.
  induction ms as [|kv ms IH]; intros d Habs; simpl; [reflexivity|].
  rewrite IH by (intros kv' f Hin; apply Habs; right; exact Hin).
  unfold json.object_member.
  destruct (json.find_field WebhookPayload_fields (fst kv)) as [g|] eqn:E;
    [|reflexivity].
  apply store_preserves.
  - exact (find_field_In _ _ _ E).
  - exact (Habs kv g (or_introl eq_refl) E).
Qed.

(** C2, as amended.  An empty object decodes to the all-zero payload.  For
    every input: one that is not valid JSON is a syntax error; decoding
    succeeds exactly when the input is a valid document that is null or an
    object whose members that name a field hold a value the field accepts;
    and after a successful decoding every field that no member names has
    its zero value. *)
Theorem Unmarshal_WebhookPayload :
  json.Unmarshal WebhookPayload_fields (body_of "{}") WebhookPayload_zero
    = (WebhookPayload_zero, None) /\
  forall data : list byte,
    (json.checkValid data = false ->
     snd (decoded (post data)) = Some SyntaxError) /\
    (snd (decoded (post data)) = None <->
     exists doc, json.parse data = Some doc /\
                 decodable WebhookPayload_fields doc = true) /\
    (forall doc n,
       snd (decoded (post data)) = None ->
       json.parse data = Some doc ->
       absent WebhookPayload_fields n doc ->
       field_value n (fst (decoded (post data)))
       = field_value n WebhookPayload_zero).
Proof.
  split; [vm_compute; reflexivity|].
  intros data. unfold decoded, post; simpl.
  split; [|split].
  - intros Hv. now rewrite Unmarshal_invalid.
  - apply Unmarshal_ok_iff.
  - intros doc n _ Hp Habs. unfold json.Unmarshal. rewrite Hp. simpl.
    destruct doc as [|b|lit|s|es|ms]; simpl;
      rewrite ?saveError_target; try reflexivity.
    apply (members_preserve n ms). exact Habs.
Qed.

Lemma Unmarshal_WebhookPayload_witness :
  field_value "ping" (fst (decoded (post (body_of "{'isp':'x','Unknown':[1]}"))))
  = Some (Float64Value float64_zero).
Proof.
  apply (proj2 (proj2 (proj2 Unmarshal_WebhookPayload
                         (body_of "{'isp':'x','Unknown':[1]}")))
           (json.JObject [("isp", json.JString "x");
                          ("Unknown", json.JArray [json.JNumber "1"])])
           "ping").
  - vm_compute. reflexivity.
  - vm_compute. reflexivity.
  - intros kv f Hin. simpl in Hin.
    destruct Hin as [<-|[<-|[]]]; vm_compute; intros [= <-]; discriminate.
Defined.

(** C2, as stated, fails: this body is valid JSON and does not decode. *)
Lemma Unmarshal_valid_json_rejected :
  json.checkValid (body_of "{'serverId':'x'}") = true /\
  snd (decoded (post (body_of "{'serverId':'x'}")))
  = Some (UnmarshalTypeError "string" "serverId").
Proof. split; vm_compute; reflexivity. Qed.

(** C9. A POST with an empty body is answered 400: the empty input is no
    JSON document, the syntax error is recorded on the span and nothing is
    recorded into the histograms.  Decoding succeeds only on inputs that
    are valid JSON documents. *)
Theorem empty_body_rejected :
  (json.checkValid [] = false /\
   http.Status (fst (webhookHandler http.newResponse (post []) ([] : list Effect)))
   = Some http.StatusBadRequest /\
   snd (webhookHandler http.newResponse (post []) [])
   = [SpanStart "handleWebhookRequest"; SpanRecordError SyntaxError; SpanEnd]) /\
  (forall data : list byte,
     snd (decoded (post data)) = None ->
     json.checkValid data = true /\ data <> []).
Proof.
  split; [repeat split; vm_compute; reflexivity|].
  intros data Hd.
  assert (Hv : json.checkValid data = true).
  { destruct (json.checkValid data) eqn:E; [reflexivity|].
    unfold decoded, post in Hd; simpl in Hd.
    rewrite (Unmarshal_invalid _ _ _ E) in Hd. discriminate. }
  split; [exact Hv|]. intros ->. vm_compute in Hv. discriminate.
Qed.

Lemma empty_body_rejected_witness :
  json.checkValid (body_of "null") = true /\ body_of "null" <> [].
Proof.
  apply (proj2 empty_body_rejected (body_of "null")).
  vm_compute. reflexivity.
Defined.

(** ** Startup and shutdown *)

Lemma occurs_before_iff (P Q : Event -> bool) (tr : list Event) :
  occurs_beforeb P Q tr = true <-> occurs_before P Q tr.
Proof.
  unfold occurs_before. split.
  - induction tr as [|a rest IH]; simpl; [discriminate|].
    intros E. apply orb_true_iff in E. destruct E as [E|E].
    + apply andb_true_iff in E. destruct E as [Pa Ex].
      apply existsb_exists in Ex. destruct Ex as [b [Hin Qb]].
      apply in_split in Hin. destruct Hin as [l2 [l3 ->]].
      exists [], a, l2, b, l3. auto.
    + destruct (IH E) as [l1 [x [l2 [b [l3 [-> [Px Qb]]]]]]].
      exists (a :: l1), x, l2, b, l3. auto.
  - intros [l1 [a [l2 [b [l3 [-> [Pa Qb]]]]]]].
    induction l1 as [|x l1 IH]; simpl.
    + rewrite Pa. simpl. apply orb_true_iff. left.
      apply existsb_exists. exists b. split; [|exact Qb].
      apply in_or_app. right. left. reflexivity.
    + rewrite IH. apply orb_true_r.
Qed.

(** The executions of [run], by what the world answers. *)
Ltac run_cases env :=
  unfold run, return_, Fatalf, deferred_otelShutdown, cancel_;
  cbn [err set_err result run_deferred];
  destruct (setupOTelSDK env) as [e0|] eqn:Hsetup;
  [| destruct (Float64Histogram env "speedtest.ping") as [e1|] eqn:Hping;
     [| destruct (Float64Histogram env "speedtest.download") as [e2|] eqn:Hdown;
        [| destruct (Float64Histogram env "speedtest.upload") as [e3|] eqn:Hup;
           [| destruct (String.eqb_spec (Getenv env "STW_SERVER_PORT") "") as [Hport|Hport];
              [| destruct (strconv.Atoi (Getenv env "STW_SERVER_PORT")) as [port|] eqn:Hatoi;
                 [ destruct (ListenAndServe env) as [e4|] eqn:Hlisten;
                   [| destruct (Stop env) eqn:Hstop;
                      [ destruct (Shutdown env) as [e5|] eqn:Hshut | ] ] | ] ] ] ] ] ];
  cbn [err set_err result run_deferred fst snd app negb].

Ltac in_cases H :=
  simpl in H;
  repeat (destruct H as [H|H]; [try discriminate H|]);
  try contradiction.

(** C1: the code does not do this.  In both executions the server is shut
    down by a signal and the telemetry shutdown returns an error.  When the
    listener closes without error [run] returns nil and the process exits
    with status 0; when the listener fails to close [run] returns that error
    alone.  The telemetry shutdown is called in both, and its error is in
    neither result. *)
Theorem run_drops_flush_error :
  (otelShutdown (env_with (Some flush_error) None None "1214") = Some flush_error /\
   In (EvServerShutdown 5)
      (fst (run (env_with (Some flush_error) None None "1214"))) /\
   In EvOtelShutdown
      (fst (run (env_with (Some flush_error) None None "1214"))) /\
   snd (run (env_with (Some flush_error) None None "1214")) = Returned None /\
   snd (main (env_with (Some flush_error) None None "1214")) = Some 0) /\
  (In EvOtelShutdown
      (fst (run (env_with (Some flush_error) None (Some close_error) "1214"))) /\
   snd (run (env_with (Some flush_error) None (Some close_error) "1214"))
   = Returned (Some close_error) /\
   contains close_error flush_error = false).
Proof. repeat split; vm_compute; tauto. Qed.

(** The result of [run] never depends on the error of the telemetry
    shutdown. *)
Lemma run_result_ignores_otelShutdown (env : Env) (flush : option error) :
  snd (run {| godotenv_Load := godotenv_Load env;
              setupOTelSDK := setupOTelSDK env;
              otelShutdown := flush;
              Float64Histogram := Float64Histogram env;
              Getenv := Getenv env;
              ListenAndServe := ListenAndServe env;
              Stop := Stop env;
              Shutdown := Shutdown env |})
  = snd (run env).
Proof.
  unfold run, return_, Fatalf, deferred_otelShutdown, cancel_.
  cbn [err set_err result run_deferred setupOTelSDK otelShutdown
       Float64Histogram Getenv ListenAndServe Stop Shutdown].
  destruct (setupOTelSDK env); [reflexivity|].
  destruct (Float64Histogram env "speedtest.ping"); [reflexivity|].
  destruct (Float64Histogram env "speedtest.download"); [reflexivity|].
  destruct (Float64Histogram env "speedtest.upload"); [reflexivity|].
  destruct (Getenv env "STW_SERVER_PORT" =? "")%string; [reflexivity|].
  destruct (strconv.Atoi (Getenv env "STW_SERVER_PORT")); [|reflexivity].
  destruct (ListenAndServe env); [reflexivity|].
  destruct (Stop env); [|reflexivity].
  destruct (Shutdown env); reflexivity.
Qed.




Lemma digits_value_digits (ds : list byte) :
  forall acc n, strconv.digits_value acc ds = Some n ->
                forallb strconv.is_digit ds = true.
Proof.
  induction ds as [|c ds IH]; intros acc n; simpl; [reflexivity|].
  destruct (strconv.is_digit c); [|discriminate].
  intros E. simpl. exact (IH _ _ E).
Qed.

(** [Atoi] accepts decimal integers only. *)
Lemma Atoi_decimal (s : string) (n : Z) :
  strconv.Atoi s = Some n -> is_decimal_integer s = true.
Proof.
  unfold strconv.Atoi, strconv.ParseInt, is_decimal_integer.
  destruct (list_byte_of_string s) as [|c rest]; [discriminate|].
  destruct (Byte.eqb c "+"); [|destruct (Byte.eqb c "-")];
    cbv beta iota zeta; cbn [orb].
  - destruct rest as [|b r]; [discriminate|].
    destruct (strconv.digits_value 0 (b :: r)) eqn:E; [|discriminate].
    intros _. exact (digits_value_digits _ _ _ E).
  - destruct rest as [|b r]; [discriminate|].
    destruct (strconv.digits_value 0 (b :: r)) eqn:E; [|discriminate].
    intros _. exact (digits_value_digits _ _ _ E).
  - destruct (strconv.digits_value 0 (c :: rest)) eqn:E; [|discriminate].
    intros _. exact (digits_value_digits _ _ _ E).
Qed.

(** C8, as amended.  When [setupOTelSDK] fails, or STW_SERVER_PORT is
    absent or no decimal integer, the server is never set up and never
    listens.  [run] then returns a non-nil error if [setupOTelSDK] failed
    (that very error) or if the three histograms were created.  And
    whatever the port is: when [setupOTelSDK] succeeded and the creation of
    a histogram fails, the process is ended by [log.Fatalf] with status 1,
    so that [run] does not return, and the port has not been read. *)
Theorem startup_fails_fast (env : Env) :
  (setupOTelSDK env <> None
   \/ Getenv env "STW_SERVER_PORT" = ""
   \/ is_decimal_integer (Getenv env "STW_SERVER_PORT") = false ->
   (forall ev, In ev (fst (run env)) -> is_server_event ev = false) /\
   (forall e, setupOTelSDK env = Some e -> snd (run env) = Returned (Some e)) /\
   (setupOTelSDK env <> None
    \/ (forall i, In i instruments -> Float64Histogram env (fst (fst i)) = None) ->
    exists e, snd (run env) = Returned (Some e))) /\
  (setupOTelSDK env = None ->
   (exists i, In i instruments /\ Float64Histogram env (fst (fst i)) <> None) ->
   snd (run env) = Exited 1 /\
   (exists msg e, In (EvFatal msg e) (fst (run env))) /\
   ~ In (EvGetenv "STW_SERVER_PORT") (fst (run env))).
Proof.
  split.
  { intros Hcase.
    assert (Hport' : forall port,
               strconv.Atoi (Getenv env "STW_SERVER_PORT") = Some port ->
               setupOTelSDK env = None ->
               Getenv env "STW_SERVER_PORT" <> "" -> False).
    { intros port Ha Hs Hp. destruct Hcase as [H|[H|H]]; try contradiction.
      rewrite (Atoi_decimal _ _ Ha) in H. discriminate. }
    split; [|split].
    - intros ev Hin. revert Hin. run_cases env; intros Hin;
        try (exfalso; apply (Hport' port); [reflexivity | reflexivity | assumption]);
        in_cases Hin; subst ev; reflexivity.
    - intros e He. revert He. run_cases env; intros He;
        try discriminate He. injection He as <-. reflexivity.
    - intros Hok.
      assert (Hall : setupOTelSDK env = None ->
                     Float64Histogram env "speedtest.ping" = None /\
                     Float64Histogram env "speedtest.download" = None /\
                     Float64Histogram env "speedtest.upload" = None).
      { intros Hs. destruct Hok as [Hok|Hok]; [congruence|].
        repeat split.
        - apply (Hok ("speedtest.ping", "Ping latency", "ms")). simpl. tauto.
        - apply (Hok ("speedtest.download", "Download speed", "bps")). simpl. tauto.
        - apply (Hok ("speedtest.upload", "Upload speed", "bps")). simpl. tauto. }
      revert Hall. run_cases env; intros Hall;
        try (exfalso; apply (Hport' port); [reflexivity | reflexivity | assumption]);
        try (destruct (Hall eq_refl) as [H1 [H2 H3]]; congruence);
        eexists; reflexivity. }
  intros Hs [i [Hin Hf]].
  assert (Hsome : Float64Histogram env "speedtest.ping" <> None
                  \/ Float64Histogram env "speedtest.download" <> None
                  \/ Float64Histogram env "speedtest.upload" <> None).
  { simpl in Hin. destruct Hin as [<-|[<-|[<-|[]]]]; simpl in Hf; tauto. }
  clear i Hin Hf. revert Hs Hsome.
  run_cases env; intros Hs Hsome; try discriminate Hs;
    try (exfalso; destruct Hsome as [H|[H|H]]; apply H; reflexivity);
    (split; [reflexivity|]);
    (split; [do 2 eexists; simpl; repeat (first [left; reflexivity | right])|]);
    intros Hin; in_cases Hin.
Qed.

Lemma startup_fails_fast_witness :
  (forall ev, In ev (fst (run (env_with None None None "80a"))) ->
              is_server_event ev = false) /\
  (forall e, setupOTelSDK (env_with None None None "80a") = Some e ->
             snd (run (env_with None None None "80a")) = Returned (Some e)) /\
  (setupOTelSDK (env_with None None None "80a") <> None
   \/ (forall i, In i instruments ->
         Float64Histogram (env_with None None None "80a") (fst (fst i)) = None) ->
   exists e, snd (run (env_with None None None "80a")) = Returned (Some e)).
Proof.
  apply (proj1 (startup_fails_fast (env_with None None None "80a"))).
  right. right. vm_compute. reflexivity.
Defined.

(** C8, as stated, fails: the port is absent, and [run] does not return,
    the creation of the ping histogram having ended the process. *)
Lemma absent_port_without_return :
  Getenv (env_with None (Some (errorString "invalid instrument")) None "")
    "STW_SERVER_PORT" = "" /\
  snd (run (env_with None (Some (errorString "invalid instrument")) None ""))
  = Exited 1.
Proof. split; vm_compute; reflexivity. Qed.

(** * Further properties *)

(** ** The handler's span *)

(** X1. A request whose method is not POST makes no call at all.  For a POST
    the first call starts the span, the last call ends it, and no call in
    between starts or ends a span: the span is ended exactly once on every
    path. *)
Theorem span_ended_on_every_path
  (w : http.ResponseWriter) (r : http.Request) (t : list Effect) :
  exists added,
    snd (webhookHandler w r t) = t ++ added /\
    (http.Method r <> http.MethodPost /\ added = []
     \/ http.Method r = http.MethodPost /\
        exists mid,
          added = SpanStart "handleWebhookRequest" :: mid ++ [SpanEnd] /\
          forall e, In e mid -> is_SpanStart e = false /\ is_SpanEnd e = false).
Proof.
  exists (snd (webhookHandler w r [])).
  split; [apply webhookHandler_appends|].
  rewrite webhookHandler_effects.
  destruct (String.eqb_spec (http.Method r) http.MethodPost) as [Hm|Hm];
    cbn [negb]; [right | left; split; [exact Hm | reflexivity]].
  split; [exact Hm|].
  destruct (io.failure (http.Body r)) as [e|];
    [exists [SpanRecordError e]
    |destruct (snd (decoded r)) as [e|];
      [exists [SpanRecordError e]
      |cbv zeta;
       exists [ LogPrintf ("Received speedtest result for server ID: "
                           ++ strconv.Itoa (ServerID (fst (decoded r))))%string;
                Record_ pingHistogram (Ping (fst (decoded r)))
                  (metric_attributes (fst (decoded r)));
                Record_ downloadHistogram (Download (fst (decoded r)))
                  (metric_attributes (fst (decoded r)));
                Record_ uploadHistogram (Upload (fst (decoded r)))
                  (metric_attributes (fst (decoded r)));
                SpanAddEvent "speedtest.result"
                  (event_attributes (fst (decoded r))) ]]];
    (split; [reflexivity|]); intros x Hin; simpl in Hin;
    repeat (destruct Hin as [<-|Hin]; [split; reflexivity|]); contradiction.
Qed.

(** X2. The error recorded on the span is the error that made the request
    fail: the error of reading the body, or else the error of
    [json.Unmarshal].  It is recorded at most once, and the log line of a
    received result is written exactly when no error is recorded on a
    POST. *)
Theorem span_records_the_failure
  (w : http.ResponseWriter) (r : http.Request) (t : list Effect) :
  exists added,
    snd (webhookHandler w r t) = t ++ added /\
    (forall e, In (SpanRecordError e) added <->
       http.Method r = http.MethodPost /\
       (io.failure (http.Body r) = Some e
        \/ io.failure (http.Body r) = None /\ snd (decoded r) = Some e)) /\
    (List.length (filter is_RecordError added) <= 1)%nat /\
    (List.length (filter is_LogPrintf added) = 1%nat <->
     http.Method r = http.MethodPost /\ filter is_RecordError added = []).
Proof.
  exists (snd (webhookHandler w r [])).
  split; [apply webhookHandler_appends|].
  rewrite webhookHandler_effects.
  destruct (String.eqb_spec (http.Method r) http.MethodPost) as [Hm|Hm];
    cbn [negb].
  - destruct (io.failure (http.Body r)) as [e|];
      [|destruct (snd (decoded r)) as [e|]]; cbv zeta.
    + split; [|split; [simpl; lia|]].
      * intros x. simpl. split.
        -- intros [H|[H|[H|[]]]]; try discriminate H.
           injection H as <-. split; [exact Hm | left; reflexivity].
        -- intros [_ [[= <-]|[H _]]]; [tauto | discriminate H].
      * simpl. split; [discriminate | intros [_ H]; discriminate H].
    + split; [|split; [simpl; lia|]].
      * intros x. simpl. split.
        -- intros [H|[H|[H|[]]]]; try discriminate H.
           injection H as <-. split; [exact Hm | right; split; reflexivity].
        -- intros [_ [H|[_ [= <-]]]]; [discriminate H | tauto].
      * simpl. split; [discriminate | intros [_ H]; discriminate H].
    + split; [|split; [simpl; lia|]].
      * intros x. simpl. split.
        -- intros H. repeat (destruct H as [H|H]; [discriminate H|]).
           contradiction.
        -- intros [_ [H|[_ H]]]; discriminate H.
      * simpl. split; [intros _; split; [exact Hm | reflexivity] | reflexivity].
  - split; [|split; [simpl; lia|]].
    + intros x. simpl. split; [contradiction | intros [H _]; contradiction].
    + simpl. split; [discriminate | intros [H _]; contradiction].
Qed.

(** ** The response *)

Lemma find_app_none {A : Type} (f : A -> bool) (l1 l2 : list A) :
  find f l1 = None -> find f (l1 ++ l2) = find f l2.
Proof.
  induction l1 as [|a l1 IH]; simpl; [reflexivity|].
  destruct (f a); [discriminate | exact IH].
Qed.

Lemma find_app_some {A : Type} (f : A -> bool) (l1 l2 : list A) (x : A) :
  find f l1 = Some x -> find f (l1 ++ l2) = Some x.
Proof.
  induction l1 as [|a l1 IH]; simpl; [discriminate|].
  destruct (f a); [tauto | exact IH].
Qed.

Lemma Header_Get_Del_same (k : string) (h : list (string * string)) :
  http.Header_Get k (http.Header_Del k h) = None.
Proof.
  unfold http.Header_Get, http.Header_Del.
  induction h as [|[k' v] h IH]; simpl; [reflexivity|].
  destruct (String.eqb_spec k' k) as [->|Hk]; simpl; [exact IH|].
  destruct (String.eqb_spec k' k); [contradiction | exact IH].
Qed.

Lemma Header_Get_Del_other (k k' : string) (h : list (string * string)) :
  k' <> k ->
  http.Header_Get k' (http.Header_Del k h) = http.Header_Get k' h.
Proof.
  intros Hk. unfold http.Header_Get, http.Header_Del.
  induction h as [|[k0 v] h IH]; simpl; [reflexivity|].
  destruct (String.eqb_spec k0 k) as [->|H0]; simpl.
  - destruct (String.eqb_spec k k'); [congruence | exact IH].
  - destruct (String.eqb_spec k0 k'); [reflexivity | exact IH].
Qed.

(** After [Set] a key has the value set. *)
Lemma Header_Get_Set_same (k v : string) (h : list (string * string)) :
  http.Header_Get k (http.Header_Set k v h) = Some v.
Proof.
  pose proof (Header_Get_Del_same k h) as Hd.
  unfold http.Header_Get, http.Header_Set in *.
  destruct (find _ (http.Header_Del k h)) eqn:E; [discriminate|].
  rewrite (find_app_none _ _ _ E). simpl. rewrite String.eqb_refl. reflexivity.
Qed.

(** [Set] leaves the other keys as they are. *)
Lemma Header_Get_Set_other (k k' v : string) (h : list (string * string)) :
  k' <> k ->
  http.Header_Get k' (http.Header_Set k v h) = http.Header_Get k' h.
Proof.
  intros Hk. rewrite <- (Header_Get_Del_other k k' h Hk).
  unfold http.Header_Get, http.Header_Set.
  destruct (find _ (http.Header_Del k h)) as [x|] eqn:E.
  - rewrite (find_app_some _ _ _ _ E). reflexivity.
  - rewrite (find_app_none _ _ _ E). simpl.
    destruct (String.eqb_spec k k'); [congruence | reflexivity].
Qed.

(** What [http.Error] leaves in the header map and in the body. *)
Lemma Error_response (w : http.ResponseWriter) (msg : string) (code : Z) :
  http.Status w = None ->
  http.Status (http.Error w msg code) = Some code /\
  http.Written (http.Error w msg code)
  = (http.Written w ++ msg ++ http.newline)%string /\
  http.Header_Get "Content-Type" (http.Header (http.Error w msg code))
  = Some "text/plain; charset=utf-8" /\
  http.Header_Get "X-Content-Type-Options" (http.Header (http.Error w msg code))
  = Some "nosniff" /\
  http.Header_Get "Content-Length" (http.Header (http.Error w msg code)) = None /\
  forall k, k <> "Content-Type" -> k <> "X-Content-Type-Options" ->
            k <> "Content-Length" ->
    http.Header_Get k (http.Header (http.Error w msg code))
    = http.Header_Get k (http.Header w).
Proof.
  intros Hs. unfold http.Error, http.Fprintln, http.write, http.WriteHeader.
  cbn [http.Status http.Header http.Written]. rewrite Hs.
  cbn [http.Status http.Header http.Written].
  split; [reflexivity|]. split; [reflexivity|].
  split; [|split; [|split]].
  - rewrite Header_Get_Set_other by discriminate. apply Header_Get_Set_same.
  - apply Header_Get_Set_same.
  - rewrite !Header_Get_Set_other by discriminate. apply Header_Get_Del_same.
  - intros k H1 H2 H3.
    rewrite !Header_Get_Set_other by assumption.
    apply Header_Get_Del_other. exact H3.
Qed.

Section ResponseShape.

Context {T : Type} `{Telemetry T}.

(** X3. On a writer to which no status was written yet, the handler either
    answers 200, adds the confirmation line to the body and leaves the
    header map untouched; or it answers 400, 405 or 500 with one line of
    text, and then, whatever the header map held before, Content-Type is
    text/plain; charset=utf-8, X-Content-Type-Options is nosniff,
    Content-Length is absent and every other header is as before. *)
Theorem response_shape (w : http.ResponseWriter) (r : http.Request) (t : T) :
  http.Status w = None ->
  (http.Status (fst (webhookHandler w r t)) = Some http.StatusOK /\
   http.Header (fst (webhookHandler w r t)) = http.Header w /\
   http.Written (fst (webhookHandler w r t))
   = (http.Written w ++ "Webhook received and processed." ++ http.newline)%string)
  \/
  ((http.Status (fst (webhookHandler w r t)) = Some http.StatusBadRequest
    \/ http.Status (fst (webhookHandler w r t)) = Some http.StatusMethodNotAllowed
    \/ http.Status (fst (webhookHandler w r t))
       = Some http.StatusInternalServerError) /\
   (exists msg,
      http.Written (fst (webhookHandler w r t))
      = (http.Written w ++ msg ++ http.newline)%string) /\
   http.Header_Get "Content-Type" (http.Header (fst (webhookHandler w r t)))
   = Some "text/plain; charset=utf-8" /\
   http.Header_Get "X-Content-Type-Options"
     (http.Header (fst (webhookHandler w r t))) = Some "nosniff" /\
   http.Header_Get "Content-Length" (http.Header (fst (webhookHandler w r t)))
   = None /\
   forall k, k <> "Content-Type" -> k <> "X-Content-Type-Options" ->
             k <> "Content-Length" ->
     http.Header_Get k (http.Header (fst (webhookHandler w r t)))
     = http.Header_Get k (http.Header w)).
Proof.
  intros Hs. unfold webhookHandler, io.ReadAll.
  destruct (negb (http.Method r =? http.MethodPost)%string);
    [|destruct (io.failure (http.Body r));
      [|destruct (json.Unmarshal _ _ _) as [p [e|]]]];
    cbn [fst].
  - right. destruct (Error_response w "Method not allowed"
                       http.StatusMethodNotAllowed Hs) as [E1 [E2 E3]].
    split; [tauto|]. split; [eexists; exact E2 | exact E3].
  - right. destruct (Error_response w "Error reading request body"
                       http.StatusInternalServerError Hs) as [E1 [E2 E3]].
    split; [tauto|]. split; [eexists; exact E2 | exact E3].
  - right. destruct (Error_response w "Error parsing JSON payload"
                       http.StatusBadRequest Hs) as [E1 [E2 E3]].
    split; [tauto|]. split; [eexists; exact E2 | exact E3].
  - left. unfold http.Fprintln, http.write, http.WriteHeader.
    cbn [http.Status http.Header http.Written]. rewrite Hs.
    cbn [http.Status http.Header http.Written]. repeat split; reflexivity.
Qed.

End ResponseShape.

Lemma response_shape_witness :
  http.Status
    (fst (webhookHandler http.newResponse (post example_body)
            ([] : list Effect))) = Some http.StatusOK /\
  http.Written
    (fst (webhookHandler http.newResponse (post example_body)
            ([] : list Effect)))
  = ("Webhook received and processed." ++ http.newline)%string.
Proof.
  destruct (response_shape http.newResponse (post example_body)
              ([] : list Effect) eq_refl)
    as [[Hs [_ Hw]]|[Hs _]].
  - split; [exact Hs | exact Hw].
  - exfalso. revert Hs. vm_compute.
    intros [Hs|[Hs|Hs]]; discriminate Hs.
Defined.


(** ** strconv: rendering and reading back *)

Ltac eval_digit :=
  repeat match goal with
    | |- context [strconv.is_digit (byte_of_ascii ?a)] =>
        let v := eval vm_compute in (strconv.is_digit (byte_of_ascii a)) in
        change (strconv.is_digit (byte_of_ascii a)) with v
    | |- context [strconv.digit_val (byte_of_ascii ?a)] =>
        let v := eval vm_compute in (strconv.digit_val (byte_of_ascii a)) in
        change (strconv.digit_val (byte_of_ascii a)) with v
    end.

Ltac digit_step d :=
  unfold list_byte_of_string; cbn [list_ascii_of_string map];
  fold (list_byte_of_string (NilEmpty.string_of_uint d));
  cbn [strconv.digits_value]; eval_digit; cbv iota.

Lemma digits_value_of_uint_acc (u : Decimal.uint) :
  forall acc : positive,
    strconv.digits_value (Z.pos acc)
      (list_byte_of_string (NilEmpty.string_of_uint u))
    = Some (Z.pos (Pos.of_uint_acc u acc)).
Proof.
  induction u as [|d IHd|d IHd|d IHd|d IHd|d IHd|d IHd|d IHd|d IHd|d IHd|d IHd];
    intros acc; cbn [NilEmpty.string_of_uint Pos.of_uint_acc];
    try reflexivity; digit_step d;
    match goal with
    | |- strconv.digits_value ?z _ = Some (Z.pos (Pos.of_uint_acc _ ?p)) =>
        replace z with (Z.pos p) by lia
    end; apply IHd.
Qed.

Lemma digits_value_of_uint (u : Decimal.uint) :
  strconv.digits_value 0 (list_byte_of_string (NilEmpty.string_of_uint u))
  = Some (Z.of_N (Pos.of_uint u)).
Proof.
  induction u as [|d IHd|d IHd|d IHd|d IHd|d IHd|d IHd|d IHd|d IHd|d IHd|d IHd];
    cbn [NilEmpty.string_of_uint Pos.of_uint];
    try reflexivity; digit_step d;
    [ exact IHd | .. ];
    match goal with
    | |- strconv.digits_value ?z _ = Some (Z.of_N (N.pos (Pos.of_uint_acc _ ?p))) =>
        replace z with (Z.pos p) by lia
    end; apply digits_value_of_uint_acc.
Qed.

(** The rendering of a positive number: its digits, the first of which is
    no sign. *)
Lemma to_uint_bytes (p : positive) :
  exists c rest,
    list_byte_of_string (NilEmpty.string_of_uint (Pos.to_uint p)) = c :: rest /\
    Byte.eqb c "+" = false /\ Byte.eqb c "-" = false /\
    NilZero.string_of_uint (Pos.to_uint p)
    = NilEmpty.string_of_uint (Pos.to_uint p).
Proof.
  pose proof (Unsigned.to_uint_nonnil p) as Hnn.
  destruct (Pos.to_uint p) as [|d|d|d|d|d|d|d|d|d|d]; [contradiction|..];
    eexists; eexists; (split; [reflexivity|]); repeat split; reflexivity.
Qed.

Lemma ParseInt_Itoa (n : Z) :
  - 2 ^ 63 <= n < 2 ^ 63 -> strconv.ParseInt (strconv.Itoa n) 64 = Some n.
Proof.
  intros Hr. unfold strconv.ParseInt, strconv.Itoa.
  destruct n as [|p|p]; [reflexivity|..];
    cbn [Z.to_int NilZero.string_of_int];
    destruct (to_uint_bytes p) as [c [rest [Hb [Hplus [Hminus Hz]]]]];
    pose proof (digits_value_of_uint (Pos.to_uint p)) as Hd;
    rewrite Unsigned.of_to in Hd; rewrite Hz.
  - rewrite Hb in *. rewrite Hplus, Hminus. cbv beta iota zeta. rewrite Hd.
    cbn [negb andb Z.of_N].
    replace (2 ^ (64 - 1) <=? Z.pos p) with false by (symmetry; apply Z.leb_gt; lia).
    reflexivity.
  - unfold list_byte_of_string; cbn [list_ascii_of_string map].
    fold (list_byte_of_string (NilEmpty.string_of_uint (Pos.to_uint p))).
    change (Byte.eqb (byte_of_ascii "-") "+") with false.
    change (Byte.eqb (byte_of_ascii "-") "-") with true.
    cbv beta iota zeta. rewrite Hb in *. rewrite Hd.
    cbn [negb andb Z.of_N].
    replace (2 ^ (64 - 1) <? Z.pos p) with false by (symmetry; apply Z.ltb_ge; lia).
    reflexivity.
Qed.

(** ** strconv: what the readers return *)

Lemma digits_value_nonneg (s : list byte) :
  forall acc n, 0 <= acc -> strconv.digits_value acc s = Some n -> 0 <= n.
Proof.
  induction s as [|c s IH]; intros acc n Hacc; cbn [strconv.digits_value].
  - intros [= <-]. exact Hacc.
  - destruct (strconv.is_digit c) eqn:Hc; [|discriminate].
    apply IH. unfold strconv.is_digit, in_range in Hc.
    unfold strconv.digit_val. lia.
Qed.

(** [ParseInt] only returns values of the requested width. *)
Lemma ParseInt_range (s : string) (n : Z) :
  strconv.ParseInt s 64 = Some n -> - 2 ^ 63 <= n < 2 ^ 63.
Proof.
  unfold strconv.ParseInt.
  destruct (list_byte_of_string s) as [|c rest]; [discriminate|].
  assert (Hgen : forall (neg : bool) (ds : list byte),
             match ds with
             | [] => None
             | _ :: _ =>
                 match strconv.digits_value 0 ds with
                 | Some un =>
                     if negb neg && (2 ^ (64 - 1) <=? un) then None
                     else if neg && (2 ^ (64 - 1) <? un) then None
                     else Some (if neg then - un else un)
                 | None => None
                 end
             end = Some n -> - 2 ^ 63 <= n < 2 ^ 63).
  { intros neg [|d ds]; [discriminate|].
    destruct (strconv.digits_value 0 (d :: ds)) as [un|] eqn:E; [|discriminate].
    pose proof (digits_value_nonneg _ _ _ (Z.le_refl 0) E) as Hun.
    destruct neg; cbn [negb andb].
    - destruct (2 ^ (64 - 1) <? un) eqn:L; [discriminate|].
      intros [= <-]. apply Z.ltb_ge in L. lia.
    - destruct (2 ^ (64 - 1) <=? un) eqn:L; [discriminate|].
      intros [= <-]. apply Z.leb_gt in L. lia. }
  destruct (Byte.eqb c "+"); [exact (Hgen false rest)|].
  destruct (Byte.eqb c "-"); [exact (Hgen true rest)|].
  exact (Hgen false (c :: rest)).
Qed.

(** Shifting a rounding record to the right keeps its mantissa
    non-negative. *)
Lemma shr_1_nonneg (mrs : shr_record) :
  0 <= shr_m mrs -> 0 <= shr_m (shr_1 mrs).
Proof.
  destruct mrs as [m r s]. cbn [shr_m]. intros Hm.
  destruct m as [|p|p]; [| |lia]; cbn; [lia|].
  destruct p; cbn; lia.
Qed.

Lemma iter_shr_1_nonneg (p : positive) :
  forall mrs, 0 <= shr_m mrs -> 0 <= shr_m (iter_pos shr_1 p mrs).
Proof.
  induction p as [p IH|p IH|]; intros mrs Hm; cbn [iter_pos].
  - apply IH, IH, shr_1_nonneg, Hm.
  - apply IH, IH, Hm.
  - apply shr_1_nonneg, Hm.
Qed.

Lemma shr_fexp_nonneg (m e : Z) (l : location) :
  0 <= m -> 0 <= shr_m (fst (shr_fexp 53 1024 m e l)).
Proof.
  intros Hm. unfold shr_fexp, shr.
  assert (H0 : 0 <= shr_m (shr_record_of_loc m l)).
  { destruct l as [|[]]; exact Hm. }
  destruct (fexp 53 1024 (Zdigits2 m + e) - e) as [|p|p]; cbn [fst];
    [exact H0 | | exact H0].
  apply iter_shr_1_nonneg, H0.
Qed.

(** Rounding a non-negative mantissa gives a zero, a finite number or an
    infinity, never a NaN. *)
Lemma binary_round_aux_not_nan (sx : bool) (mx ex : Z) (lx : location) :
  0 <= mx -> binary_round_aux 53 1024 sx mx ex lx <> S754_nan.
Proof.
  intros Hm. unfold binary_round_aux.
  pose proof (shr_fexp_nonneg mx ex lx Hm) as H1.
  destruct (shr_fexp 53 1024 mx ex lx) as [mrs' e']. cbn [fst] in H1.
  assert (H2 : 0 <= round_nearest_even (shr_m mrs') (loc_of_shr_record mrs')).
  { unfold round_nearest_even.
    destruct (loc_of_shr_record mrs') as [|[]]; try exact H1;
      [destruct (Z.even (shr_m mrs'))|]; lia. }
  pose proof (shr_fexp_nonneg _ e' loc_Exact H2) as H3.
  destruct (shr_fexp 53 1024 _ e' loc_Exact) as [mrs'' e'']. cbn [fst] in H3.
  destruct (shr_m mrs'') as [|p|p]; [discriminate| |lia].
  destruct (e'' <=? 1024 - 53); discriminate.
Qed.

Lemma round_float64_not_nan (neg : bool) (num den : Z) :
  0 <= num -> 0 < den -> strconv.round_float64 neg num den <> S754_nan.
Proof.
  intros Hn Hd. unfold strconv.round_float64, SFdiv_core_binary.
  set (e' := Z.min _ _). set (m' := match (0 - 0 - e') with Z0 => num | Zpos _ => _ | Zneg _ => _ end).
  assert (Hm' : 0 <= m').
  { subst m'. destruct (0 - 0 - e'); [exact Hn | | lia].
    apply Z.shiftl_nonneg. exact Hn. }
  pose proof (Z.div_pos m' den Hm' Hd) as Hq.
  unfold Z.div in Hq. destruct (Z.div_eucl m' den) as [q r].
  apply binary_round_aux_not_nan. exact Hq.
Qed.

Lemma read_mantissa_nonneg (s : list byte) :
  forall sawdot sawdigits m frac,
    0 <= m ->
    0 <= fst (fst (fst (strconv.read_mantissa sawdot sawdigits m frac s))).
Proof.
  induction s as [|c s IH]; intros sawdot sawdigits m frac Hm;
    cbn [strconv.read_mantissa]; [exact Hm|].
  destruct (strconv.is_digit c) eqn:Hc.
  - apply IH. unfold strconv.is_digit, in_range in Hc.
    unfold strconv.digit_val. lia.
  - destruct (Byte.eqb c "." && negb sawdot); [apply IH; exact Hm | exact Hm].
Qed.

(** [ParseFloat] returns zeros and finite numbers only. *)
Lemma ParseFloat_finite (s : string) (x : float64) :
  strconv.ParseFloat s = Some x -> is_finite x = true.
Proof.
  unfold strconv.ParseFloat.
  destruct (strconv.readFloat (list_byte_of_string s)) as [d|] eqn:Hr;
    [|discriminate].
  assert (Hm : 0 <= strconv.d_mant d).
  { revert Hr. unfold strconv.readFloat.
    set (start := match list_byte_of_string s with [] => _ | _ :: _ => _ end).
    destruct start as [neg s1].
    pose proof (read_mantissa_nonneg s1 false false 0 0 (Z.le_refl 0)) as Hnn.
    destruct (strconv.read_mantissa false false 0 0 s1) as [[[m sd] frac] s2].
    cbn [fst] in Hnn.
    destruct sd; [|discriminate].
    destruct (strconv.read_exponent_part s2); [|discriminate].
    intros [= <-]. exact Hnn. }
  assert (Hnan : strconv.atof64 d <> S754_nan).
  { unfold strconv.atof64.
    destruct (strconv.d_mant d =? 0); [discriminate|].
    destruct (0 <=? strconv.d_exp10 d) eqn:He.
    - apply round_float64_not_nan; [|lia].
      apply Z.mul_nonneg_nonneg; [exact Hm|].
      apply Z.pow_nonneg. lia.
    - apply round_float64_not_nan; [exact Hm|].
      apply Z.pow_pos_nonneg; lia. }
  destruct (strconv.atof64 d); try discriminate; try contradiction;
    intros [= <-]; reflexivity.
Qed.

(** ** What the decoder stores *)

Section DecodingMore.

Context {T : Type} (fields : list (json.field T)).

Lemma store_respects (P : T -> Prop) (g : json.field T) (v : json.Value)
  (d : json.decodeState T) :
  setter_respects P g -> P (json.target d) -> P (json.target (json.store g v d)).
Proof.
  unfold setter_respects, json.store. intros Hg Hd.
  destruct v as [|b|lit|s|es|ms]; destruct (json.setter g) as [set|set|set];
    rewrite ?saveError_target; try exact Hd.
  - destruct (strconv.ParseInt lit 64) as [n|] eqn:E;
      rewrite ?saveError_target; [|exact Hd].
    cbn [json.assign json.target]. apply Hg; [|exact Hd].
    exact (ParseInt_range _ _ E).
  - destruct (strconv.ParseFloat lit) as [x|] eqn:E;
      rewrite ?saveError_target; [|exact Hd].
    cbn [json.assign json.target]. apply Hg; [|exact Hd].
    exact (ParseFloat_finite _ _ E).
  - cbn [json.assign json.target]. apply Hg. exact Hd.
Qed.

(** A property that every setter keeps holds of whatever [Unmarshal]
    leaves in the struct, with or without an error. *)
Lemma Unmarshal_invariant (P : T -> Prop) (data : list byte) (v : T) :
  (forall g, In g fields -> setter_respects P g) ->
  P v -> P (fst (json.Unmarshal fields data v)).
Proof.
  intros Hset Hv. unfold json.Unmarshal.
  destruct (json.parse data) as [doc|]; [|exact Hv]. cbn [fst].
  destruct doc as [|b|lit|s|es|ms]; cbn [json.decode_value];
    rewrite ?saveError_target; try exact Hv.
  set (d := {| json.target := v; json.savedError := None |}).
  assert (Hd : P (json.target d)) by exact Hv.
  clearbody d. revert d Hd.
  induction ms as [|kv ms IH]; intros d Hd; cbn [fold_left]; [exact Hd|].
  apply IH. unfold json.object_member.
  destruct (json.find_field fields (fst kv)) as [g|] eqn:E; [|exact Hd].
  apply store_respects; [|exact Hd].
  apply Hset. exact (find_field_In _ _ _ E).
Qed.



End DecodingMore.

Lemma WebhookPayload_setters_respect (g : json.field WebhookPayload) :
  In g WebhookPayload_fields -> setter_respects well_formed g.
Proof.
  intros Hin. simpl in Hin.
  repeat (destruct Hin as [<-|Hin]); try contradiction;
    unfold setter_respects, well_formed; cbn; intros; tauto.
Qed.

Lemma WebhookPayload_zero_well_formed : well_formed WebhookPayload_zero.
Proof. unfold well_formed, in_int64. cbn. repeat split; lia. Qed.

Lemma decoded_payload_wf (data : list byte) :
  well_formed
    (fst (json.Unmarshal WebhookPayload_fields data WebhookPayload_zero)).
Proof.
  apply Unmarshal_invariant.
  - exact WebhookPayload_setters_respect.
  - exact WebhookPayload_zero_well_formed.
Qed.

(** X7. Whatever the body is, the payload that [json.Unmarshal] leaves has
    integers that are 64-bit values and floats that are zero or finite,
    never an infinity or a NaN. *)
Theorem decoded_payload_well_formed (data : list byte) :
  well_formed (fst (decoded (post data))).
Proof.
  exact (decoded_payload_wf data).
Qed.

(** The setter of a field stores the value in the field of that name. *)
Lemma WebhookPayload_setters_store (g : json.field WebhookPayload) :
  In g WebhookPayload_fields ->
  match json.setter g with
  | json.IntField set =>
      forall n p, field_value (json.name g) (set n p) = Some (IntValue n)
  | json.StringField set =>
      forall s p, field_value (json.name g) (set s p) = Some (StringValue s)
  | json.Float64Field set =>
      forall x p, field_value (json.name g) (set x p) = Some (Float64Value x)
  end.
Proof.
  intros Hin. simpl in Hin.
  repeat (destruct Hin as [<-|Hin]); try contradiction; cbn; reflexivity.
Qed.

Lemma store_converted (g : json.field WebhookPayload) (v : json.Value)
  (x : FieldValue) (d : json.decodeState WebhookPayload) :
  In g WebhookPayload_fields -> converted g v = Some x ->
  field_value (json.name g) (json.target (json.store g v d)) = Some x.
Proof.
  intros Hin. pose proof (WebhookPayload_setters_store g Hin) as Hs.
  unfold converted, json.store.
  destruct v as [|b|lit|s|es|ms]; destruct (json.setter g) as [set|set|set];
    try discriminate.
  - destruct (strconv.ParseInt lit 64); [|discriminate].
    intros [= <-]. apply Hs.
  - destruct (strconv.ParseFloat lit); [|discriminate].
    intros [= <-]. apply Hs.
  - intros [= <-]. apply Hs.
Qed.

Lemma members_preserve_null (n : string) (ms : list (string * json.Value)) :
  forall d : json.decodeState WebhookPayload,
    (forall kv f, In kv ms ->
       json.find_field WebhookPayload_fields (fst kv) = Some f ->
       json.name f <> n \/ snd kv = json.JNull) ->
    field_value n
      (json.target (fold_left (json.object_member WebhookPayload_fields) ms d))
    = field_value n (json.target d).
Proof.
  induction ms as [|kv ms IH]; intros d Habs; simpl; [reflexivity|].
  rewrite IH by (intros kv' f Hin; apply Habs; right; exact Hin).
  unfold json.object_member.
  destruct (json.find_field WebhookPayload_fields (fst kv)) as [g|] eqn:E;
    [|reflexivity].
  destruct (Habs kv g (or_introl eq_refl) E) as [Hn|Hnull].
  - apply store_preserves; [exact (find_field_In _ _ _ E) | exact Hn].
  - rewrite Hnull. reflexivity.
Qed.

(** X10. The last member that names a field, nulls apart, decides the
    field: when the body is an object in which the member [(k, v)] names the
    field [f], [v] is a value the field accepts, and every later member
    names another field or is null, then after decoding the field holds
    [v] (the string, or the number read by [ParseInt] or [ParseFloat]). *)
Theorem last_member_decides
  (data : list byte) (ms ms' : list (string * json.Value))
  (k : string) (v : json.Value) (f : json.field WebhookPayload)
  (x : FieldValue) :
  json.parse data = Some (json.JObject (ms ++ (k, v) :: ms')) ->
  json.find_field WebhookPayload_fields k = Some f ->
  converted f v = Some x ->
  (forall kv g, In kv ms' ->
     json.find_field WebhookPayload_fields (fst kv) = Some g ->
     json.name g <> json.name f \/ snd kv = json.JNull) ->
  field_value (json.name f) (fst (decoded (post data))) = Some x.
Proof.
  intros Hp Hf Hx Hlater.
  unfold decoded, post; cbn [http.Body io.content].
  unfold json.Unmarshal. rewrite Hp. cbn [fst json.decode_value].
  rewrite fold_left_app. cbn [fold_left].
  rewrite (members_preserve_null (json.name f) ms' _ Hlater).
  unfold json.object_member at 1. cbn [fst snd]. rewrite Hf.
  apply store_converted; [exact (find_field_In _ _ _ Hf) | exact Hx].
Qed.

Lemma last_member_decides_witness :
  field_value "serverId"
    (fst (decoded (post (body_of "{'serverId':1,'SERVERID':456,'isp':'x','serverid':null}"))))
  = Some (IntValue 456).
Proof.
  refine (last_member_decides
            (body_of "{'serverId':1,'SERVERID':456,'isp':'x','serverid':null}")
            [("serverId", json.JNumber "1")]
            [("isp", json.JString "x"); ("serverid", json.JNull)]
            "SERVERID" (json.JNumber "456")
            {| json.name := "serverId"; json.setter := json.IntField set_ServerID |}
            (IntValue 456) _ _ _ _).
  - vm_compute. reflexivity.
  - vm_compute. reflexivity.
  - vm_compute. reflexivity.
  - intros kv g Hin. simpl in Hin.
    destruct Hin as [<-|[<-|[]]].
    + vm_compute. intros [= <-]. left. discriminate.
    + intros _. right. reflexivity.
Defined.

(** ** Which keys name a field *)

Lemma find_exists {A : Type} (P : A -> bool) (l : list A) (a : A) :
  In a l -> P a = true -> exists b, find P l = Some b.
Proof.
  intros Hin Ha. destruct (find P l) as [b|] eqn:E; [exists b; reflexivity|].
  rewrite (find_none P l E a Hin) in Ha. discriminate.
Qed.

(** No two struct tags have the same folded name. *)
Lemma folded_tags_distinct (g f : json.field WebhookPayload) :
  In g WebhookPayload_fields -> In f WebhookPayload_fields ->
  json.foldName (json.name g) = json.foldName (json.name f) -> g = f.
Proof.
  intros Hg Hf. simpl in Hg, Hf.
  repeat (destruct Hg as [<-|Hg]); try contradiction;
    repeat (destruct Hf as [<-|Hf]); try contradiction;
    intros E; try reflexivity; vm_compute in E; discriminate E.
Qed.

(** X16. A key names a field exactly when its folded form is the folded form
    of the field's struct tag: the twelve tags are recognised whatever the
    case of their letters, and nothing else is. *)
Theorem key_names_field (k : string) (f : json.field WebhookPayload) :
  json.find_field WebhookPayload_fields k = Some f <->
  In f WebhookPayload_fields /\ json.foldName (json.name f) = json.foldName k.
Proof.
  split.
  - intros Hf. split; [exact (find_field_In _ _ _ Hf)|].
    unfold json.find_field in Hf.
    destruct (find _ WebhookPayload_fields) as [g|] eqn:E.
    + injection Hf as <-. apply find_some in E. destruct E as [_ E].
      apply String.eqb_eq in E. now rewrite E.
    + apply find_some in Hf. destruct Hf as [_ Hf].
      apply String.eqb_eq in Hf. exact Hf.
  - intros [Hin Hfold]. unfold json.find_field.
    destruct (find _ WebhookPayload_fields) as [g|] eqn:E.
    + apply find_some in E. destruct E as [Hg E].
      apply String.eqb_eq in E. f_equal.
      apply folded_tags_distinct; [exact Hg | exact Hin |].
      now rewrite E, Hfold.
    + destruct (find_exists
                  (fun g => String.eqb (json.foldName (json.name g))
                              (json.foldName k))
                  WebhookPayload_fields f Hin) as [g Hg].
      { apply String.eqb_eq. exact Hfold. }
      rewrite Hg. f_equal. apply find_some in Hg. destruct Hg as [Hg' Hg].
      apply String.eqb_eq in Hg.
      apply folded_tags_distinct; [exact Hg' | exact Hin |].
      now rewrite Hg, Hfold.
Qed.



(** ** What reaches the metrics *)

(** [Itoa] renders different integers differently. *)
Lemma Itoa_injective (a b : Z) : strconv.Itoa a = strconv.Itoa b -> a = b.
Proof.
  unfold strconv.Itoa. intros E.
  assert (Hnn : forall z, Z.to_int z <> Decimal.Pos Decimal.Nil
                          /\ Z.to_int z <> Decimal.Neg Decimal.Nil).
  { intros [|p|p]; cbn; split; try discriminate;
      intros [= H]; exact (Unsigned.to_uint_nonnil p H). }
  pose proof (NilZero.isi (Z.to_int a) (proj1 (Hnn a)) (proj2 (Hnn a))) as Ha.
  pose proof (NilZero.isi (Z.to_int b) (proj1 (Hnn b)) (proj2 (Hnn b))) as Hb.
  rewrite E in Ha. rewrite Ha in Hb. injection Hb as Hab.
  rewrite <- (DecimalZ.of_to a), <- (DecimalZ.of_to b). now rewrite Hab.
Qed.

(** X6. Two payloads get the same attribute set on their recordings exactly
    when they agree on the server id, the server name and the ISP. *)
Theorem metric_attributes_identify (p q : WebhookPayload) :
  metric_attributes p = metric_attributes q <->
  ServerID p = ServerID q /\ ServerName p = ServerName q /\ ISP p = ISP q.
Proof.
  unfold metric_attributes. split.
  - intros [= Hid Hname Hisp]. split; [|split]; try assumption.
    apply Itoa_injective. exact Hid.
  - intros [-> [-> ->]]. reflexivity.
Qed.

(** X5. Every value recorded into a histogram is zero or finite, and the
    server.id attribute of the recording is a decimal string that [Atoi]
    reads back as the server id the event of the request carries. *)
Theorem recordings_are_finite_and_identified
  (w : http.ResponseWriter) (r : http.Request) (t : list Effect) :
  exists added,
    snd (webhookHandler w r t) = t ++ added /\
    forall i x a, In (Record_ i x a) added ->
      is_finite x = true /\
      exists id n,
        In ("server.id", attribute.STRING id) a /\
        strconv.Atoi id = Some n /\
        In (SpanAddEvent "speedtest.result"
              (event_attributes (fst (decoded r)))) added /\
        In ("server.id", attribute.INT64 n) (event_attributes (fst (decoded r))).
Proof.
  exists (snd (webhookHandler w r [])).
  split; [apply webhookHandler_appends|].
  rewrite webhookHandler_effects.
  destruct (negb (http.Method r =? http.MethodPost)%string);
    [intros i x a []|].
  destruct (io.failure (http.Body r)) as [e|];
    [intros i x a Hin; in_cases Hin|].
  destruct (snd (decoded r)) as [e|];
    [intros i x a Hin; in_cases Hin|].
  cbv zeta.
  assert (Hwf : well_formed (fst (decoded r))).
  { destruct r as [m [c fl]]. exact (decoded_payload_wf c). }
  destruct Hwf as [_ [Hid [Hping [Hdown [Hup _]]]]].
  intros i x a Hin. simpl in Hin.
  repeat (destruct Hin as [Hin|Hin]; [try discriminate Hin|]);
    try contradiction; injection Hin as <- <- <-;
    (split; [assumption|]);
    exists (strconv.Itoa (ServerID (fst (decoded r)))),
           (ServerID (fst (decoded r)));
    (split; [simpl; tauto|]);
    (split; [exact (ParseInt_Itoa _ Hid)|]);
    (split; simpl; tauto).
Qed.

Section UnusedField.

Context {T : Type} `{Telemetry T}.

(** X4. The dashboard URL of the payload (the member url) is decoded and
    then used nowhere: two POSTs whose decoded payloads differ in that
    field only get the same response and make the same calls. *)
Theorem dashboard_url_unused
  (w : http.ResponseWriter) (r1 r2 : http.Request) (t : T) :
  readable_post r1 -> readable_post r2 ->
  snd (decoded r1) = None -> snd (decoded r2) = None ->
  set_URL "" (fst (decoded r1)) = set_URL "" (fst (decoded r2)) ->
  webhookHandler w r1 t = webhookHandler w r2 t.
Proof.
  intros [Hm1 Hf1] [Hm2 Hf2] Hd1 Hd2 Heq.
  unfold webhookHandler, io.ReadAll. unfold decoded in *.
  rewrite (method_post r1 Hm1), (method_post r2 Hm2), Hf1, Hf2.
  destruct (json.Unmarshal _ (io.content (http.Body r1)) _) as [p1 e1].
  destruct (json.Unmarshal _ (io.content (http.Body r2)) _) as [p2 e2].
  cbn [fst snd] in *. subst e1 e2.
  unfold set_URL in Heq.
  injection Heq as E1 E2 E3 E4 E5 E6 E7 E8 E9 E10 E11.
  rewrite E1, E2, E3, E4, E5, E6, E7, E8, E9, E10, E11. reflexivity.
Qed.

End UnusedField.

Lemma dashboard_url_unused_witness :
  webhookHandler http.newResponse
    (post (body_of "{'serverId':7,'url':'https://tracker/admin/results/1'}"))
    ([] : list Effect)
  = webhookHandler http.newResponse
      (post (body_of "{'serverId':7,'url':'https://tracker/admin/results/2'}"))
      [].
Proof.
  apply (dashboard_url_unused http.newResponse
           (post (body_of "{'serverId':7,'url':'https://tracker/admin/results/1'}"))
           (post (body_of "{'serverId':7,'url':'https://tracker/admin/results/2'}"))
           ([] : list Effect)).
  - split; reflexivity.
  - split; reflexivity.
  - vm_compute. reflexivity.
  - vm_compute. reflexivity.
  - vm_compute. reflexivity.
Defined.

(** ** White space around the body *)











Section SurroundingSpace.

Context {T : Type} `{Telemetry T}.


End SurroundingSpace.


(** ** The life of the process *)

(** X11. The telemetry shutdown function is called at most once.  It is
    called exactly in the executions in which [setupOTelSDK] succeeded and
    [run] returns: a process ended by [log.Fatalf], or one that serves for
    ever, never calls it.  When it is called the server has been shut down
    before if it was shut down at all, and only the cancellation of the
    signal context follows. *)
Theorem telemetry_shutdown_once (env : Env) :
  (List.length (filter is_otelShutdown (fst (run env))) <= 1)%nat /\
  (In EvOtelShutdown (fst (run env)) <->
   setupOTelSDK env = None /\ exists res, snd (run env) = Returned res) /\
  ~ occurs_before is_otelShutdown (fun ev => negb (is_cancel ev))
      (fst (run env)) /\
  (forall s, In (EvServerShutdown s) (fst (run env)) ->
     occurs_before is_serverShutdown is_otelShutdown (fst (run env))).
Proof.
  split; [|split; [|split]].
  - run_cases env; simpl; lia.
  - run_cases env; simpl; split;
      try (intros Hin; repeat (destruct Hin as [Hin|Hin]; [discriminate Hin|]);
           contradiction);
      try (intros [Hs _]; discriminate Hs);
      try (intros [_ [res Hres]]; discriminate Hres);
      try (intros _; split; [reflexivity | eexists; reflexivity]);
      try (intros _; tauto).
  - intros Hb. apply occurs_before_iff in Hb. revert Hb.
    run_cases env; intros Hb; discriminate Hb.
  - intros s Hin. revert Hin. run_cases env; intros Hin; in_cases Hin;
      apply occurs_before_iff; reflexivity.
Qed.


Lemma Itoa_nonempty (n : Z) : in_int64 n -> strconv.Itoa n <> "".
Proof.
  intros Hn E. pose proof (ParseInt_Itoa n Hn) as Hp.
  rewrite E in Hp. discriminate Hp.
Qed.

(** X14. The server listens on the address made of a colon and the decimal
    rendering of the port read from STW_SERVER_PORT, the address the server
    was created with.  The value of the port is not checked: when the
    bootstrap and the instruments succeed, every 64-bit integer written in
    decimal, negative or above 65535 as it may be, is passed on to
    [ListenAndServe]. *)
Theorem server_address (env : Env) :
  (forall addr, In (EvListenAndServe addr) (fst (run env)) ->
     exists port,
       strconv.Atoi (STW_SERVER_PORT env) = Some port /\
       addr = (":" ++ strconv.Itoa port)%string /\
       In (EvNewServer addr) (fst (run env))) /\
  (forall n, in_int64 n -> telemetry_ready env ->
     STW_SERVER_PORT env = strconv.Itoa n ->
     In (EvListenAndServe (":" ++ STW_SERVER_PORT env)%string) (fst (run env))).
Proof.
  unfold STW_SERVER_PORT. split.
  - intros addr Hin. revert Hin. run_cases env; intros Hin; in_cases Hin;
      injection Hin as <-; exists port;
      (split; [reflexivity|]); (split; [reflexivity|]); simpl; tauto.
  - intros n Hn [H1 [H2 [H3 H4]]] Hp.
    pose proof (ParseInt_Itoa n Hn) as Ha. fold (strconv.Atoi (strconv.Itoa n)) in Ha.
    pose proof (Itoa_nonempty n Hn) as Hne.
    rewrite <- Hp in Ha, Hne.
    revert H1 H2 H3 H4 Ha Hne Hp.
    run_cases env; intros H1 H2 H3 H4 Ha Hne Hp;
      try discriminate; try contradiction;
      injection Ha as ->; rewrite Hp; simpl; tauto.
Qed.

Lemma server_address_witness :
  In (EvListenAndServe (":" ++ STW_SERVER_PORT (env_with None None None "-5"))%string)
     (fst (run (env_with None None None "-5"))).
Proof.
  apply (proj2 (server_address (env_with None None None "-5")) (-5)).
  - unfold in_int64. lia.
  - repeat split.
  - reflexivity.
Defined.



(** When the server starts to listen, [run] has assigned the tracer and the
    three histograms to their package variables: no request meets a nil
    variable. *)
Lemma run_assigns_globals (env : Env) (addr : string) :
  In (EvListenAndServe addr) (fst (run env)) ->
  assigned (globals_after env (events_before is_listen (fst (run env))))
  = true.
Proof.
  unfold globals_after.
  run_cases env; intros Hin; in_cases Hin;
    cbn [events_before is_listen fold_left assign variable_of String.eqb
         Ascii.eqb Bool.eqb];
    rewrite ?Hping, ?Hdown, ?Hup; reflexivity.
Qed.

(** ** Integers from the body to the metrics *)

Ltac lex_digit d acc :=
  unfold uint_bytes; cbn [NilEmpty.string_of_uint];
  unfold list_byte_of_string; cbn [list_ascii_of_string map app];
  fold (list_byte_of_string (NilEmpty.string_of_uint d)); fold (uint_bytes d);
  cbn [json.lex_from];
  match goal with
  | |- context [json.lex_step ?s ?tk (byte_of_ascii ?a)] =>
      let b := eval vm_compute in (byte_of_ascii a) in
      change (byte_of_ascii a) with b;
      change (json.lex_step s tk b)
        with (Some (json.stateInNumber json.state1 (b :: acc), tk))
  end; cbv iota.

(** The scanner inside the digits of a number whose first digit was not
    zero, up to a comma or a closing brace. *)
Lemma lex_digits (u : Decimal.uint) :
  forall (acc : list byte) (toks : list json.token) (c : byte) (rest : list byte)
         (t : json.token),
    (c = ","%byte /\ t = json.TComma) \/ (c = "}"%byte /\ t = json.TEndObject) ->
    json.lex_from (json.stateInNumber json.state1 acc) toks
      (uint_bytes u ++ c :: rest)
    = json.lex_from json.stateBetweenTokens
        (t :: json.TNumber (rev acc ++ uint_bytes u) :: toks) rest.
Proof.
  induction u as [|d IHd|d IHd|d IHd|d IHd|d IHd|d IHd|d IHd|d IHd|d IHd|d IHd];
    intros acc toks c rest t Hc.
  { unfold uint_bytes. cbn [NilEmpty.string_of_uint list_byte_of_string
                            list_ascii_of_string map app].
    rewrite app_nil_r.
    destruct Hc as [[-> ->]|[-> ->]]; reflexivity. }
  all: lex_digit d acc; rewrite (IHd _ toks c rest t Hc); cbn [rev];
    rewrite <- app_assoc; reflexivity.
Qed.

(** The rendering of a positive number does not start with a zero. *)
Lemma to_uint_no_leading_zero (p : positive) (u : Decimal.uint) :
  Pos.to_uint p <> Decimal.D0 u.
Proof.
  intros E.
  pose proof (Unsigned.to_of (Pos.to_uint p)) as Hn.
  rewrite Unsigned.of_to in Hn. cbn [N.to_uint] in Hn.
  rewrite E in Hn. unfold Decimal.unorm in Hn. cbn [Decimal.nzhead] in Hn.
  destruct (Decimal.nzhead u) eqn:Hu;
    try (symmetry in Hn; rewrite <- Hu in Hn;
         exact (DecimalFacts.nzhead_nonzero _ _ Hn)).
  injection Hn as Hn. subst u.
  exact (Unsigned.to_uint_nonzero p E).
Qed.

(** The scanner reads the rendering of an integer as one number token. *)
Lemma lex_Itoa (n : Z) (toks : list json.token) (c : byte) (rest : list byte)
  (t : json.token) :
  (c = ","%byte /\ t = json.TComma) \/ (c = "}"%byte /\ t = json.TEndObject) ->
  json.lex_from json.stateBetweenTokens toks
    (list_byte_of_string (strconv.Itoa n) ++ c :: rest)
  = json.lex_from json.stateBetweenTokens
      (t :: json.TNumber (list_byte_of_string (strconv.Itoa n)) :: toks) rest.
Proof.
  intros Hc. unfold strconv.Itoa.
  destruct n as [|p|p]; cbn [Z.to_int NilZero.string_of_int].
  - destruct Hc as [[-> ->]|[-> ->]]; reflexivity.
  - destruct (to_uint_bytes p) as [c1 [r1 [_ [_ [_ ->]]]]].
    pose proof (to_uint_no_leading_zero p) as Hz.
    pose proof (Unsigned.to_uint_nonnil p) as Hn.
    fold (uint_bytes (Pos.to_uint p)).
    destruct (Pos.to_uint p) as [|d|d|d|d|d|d|d|d|d|d];
      [contradiction | exfalso; exact (Hz d eq_refl) | ..].
    all: unfold uint_bytes at 1; cbn [NilEmpty.string_of_uint];
      unfold list_byte_of_string at 1; cbn [list_ascii_of_string map app];
      fold (list_byte_of_string (NilEmpty.string_of_uint d));
      fold (uint_bytes d); cbn [json.lex_from];
      match goal with
      | |- context [json.lex_step ?s ?tk (byte_of_ascii ?a)] =>
          let b := eval vm_compute in (byte_of_ascii a) in
          change (byte_of_ascii a) with b;
          change (json.lex_step s tk b)
            with (Some (json.stateInNumber json.state1 [b], tk))
      end; cbv iota; rewrite (lex_digits d _ toks c rest t Hc); reflexivity.
  - destruct (to_uint_bytes p) as [c1 [r1 [_ [_ [_ ->]]]]].
    pose proof (to_uint_no_leading_zero p) as Hz.
    pose proof (Unsigned.to_uint_nonnil p) as Hn.
    unfold list_byte_of_string; cbn [list_ascii_of_string map app].
    fold (list_byte_of_string (NilEmpty.string_of_uint (Pos.to_uint p))).
    fold (uint_bytes (Pos.to_uint p)).
    change (byte_of_ascii "-") with "-"%byte.
    cbn [json.lex_from].
    change (json.lex_step json.stateBetweenTokens toks "-"%byte)
      with (Some (json.stateInNumber json.stateNeg ["-"%byte], toks)).
    cbv iota.
    destruct (Pos.to_uint p) as [|d|d|d|d|d|d|d|d|d|d];
      [contradiction | exfalso; exact (Hz d eq_refl) | ..].
    all: unfold uint_bytes at 1; cbn [NilEmpty.string_of_uint];
      unfold list_byte_of_string at 1; cbn [list_ascii_of_string map app];
      fold (list_byte_of_string (NilEmpty.string_of_uint d));
      fold (uint_bytes d); cbn [json.lex_from];
      match goal with
      | |- context [json.lex_step ?s ?tk (byte_of_ascii ?a)] =>
          let b := eval vm_compute in (byte_of_ascii a) in
          change (byte_of_ascii a) with b;
          change (json.lex_step s tk b)
            with (Some (json.stateInNumber json.state1 [b; "-"%byte], tk))
      end; cbv iota; rewrite (lex_digits d _ toks c rest t Hc); reflexivity.
Qed.

Lemma lex_from_app (l1 l2 : list byte) :
  forall st toks,
    json.lex_from st toks (l1 ++ l2)
    = match lex_run st toks l1 with
      | Some (st', toks') => json.lex_from st' toks' l2
      | None => None
      end.
Proof.
  induction l1 as [|c l1 IH]; intros st toks; cbn [app lex_run json.lex_from];
    [reflexivity|].
  destruct (json.lex_step st toks c) as [[st' toks']|]; [apply IH | reflexivity].
Qed.

Ltac run_lexer :=
  match goal with
  | |- context [lex_run ?s ?tk ?l] =>
      let v := eval vm_compute in (lex_run s tk l) in
      change (lex_run s tk l) with v
  end; cbv iota.

Lemma parse_int_body (m n : Z) :
  json.parse (int_body m n)
  = Some (json.JObject [("result_id", json.JNumber (strconv.Itoa m));
                        ("serverId", json.JNumber (strconv.Itoa n))]).
Proof.
  unfold json.parse, json.lex, int_body.
  rewrite lex_from_app. run_lexer.
  change (body_of ",'serverId':") with (","%byte :: body_of "'serverId':").
  rewrite <- app_comm_cons.
  rewrite (lex_Itoa m _ ","%byte _ json.TComma) by (left; split; reflexivity).
  rewrite <- (string_of_list_byte_of_string (strconv.Itoa m)) at 2.
  remember (list_byte_of_string (strconv.Itoa m)) as lm eqn:Hlm. clear Hlm.
  rewrite lex_from_app. run_lexer.
  change (body_of "}") with ["}"%byte].
  rewrite (lex_Itoa n _ "}"%byte _ json.TEndObject) by (right; split; reflexivity).
  rewrite <- (string_of_list_byte_of_string (strconv.Itoa n)) at 2.
  remember (list_byte_of_string (strconv.Itoa n)) as ln eqn:Hln. clear Hln.
  vm_compute. reflexivity.
Qed.

(** X17. An integer written in decimal in the body is the integer that
    reaches the telemetry, for every 64-bit value: the body with the result
    id [m] and the server id [n] decodes without error to the payload with
    these two ids, the recordings carry the decimal rendering of [n] as
    server.id, and the event carries [m] and [n]. *)
Theorem integers_round_trip (m n : Z) :
  in_int64 m -> in_int64 n ->
  (decoded (post (int_body m n))
   = (set_ServerID n (set_ResultID m WebhookPayload_zero), None)) /\
  (filter is_Record
     (snd (webhookHandler http.newResponse (post (int_body m n)) []))
   = [ Record_ pingHistogram float64_zero
         [("server.id", attribute.STRING (strconv.Itoa n));
          ("server.name", attribute.STRING ""); ("isp", attribute.STRING "")];
       Record_ downloadHistogram float64_zero
         [("server.id", attribute.STRING (strconv.Itoa n));
          ("server.name", attribute.STRING ""); ("isp", attribute.STRING "")];
       Record_ uploadHistogram float64_zero
         [("server.id", attribute.STRING (strconv.Itoa n));
          ("server.name", attribute.STRING ""); ("isp", attribute.STRING "")] ]) /\
  In (SpanAddEvent "speedtest.result"
        (event_attributes (set_ServerID n (set_ResultID m WebhookPayload_zero))))
     (snd (webhookHandler http.newResponse (post (int_body m n)) [])).
Proof.
  intros Hm Hn.
  assert (Hd : decoded (post (int_body m n))
               = (set_ServerID n (set_ResultID m WebhookPayload_zero), None)).
  { unfold decoded, post; cbn [http.Body io.content].
    unfold json.Unmarshal. rewrite parse_int_body.
    cbn [json.decode_value fold_left].
    unfold json.object_member. cbn [fst snd].
    change (json.find_field WebhookPayload_fields "result_id")
      with (Some {| json.name := "result_id";
                    json.setter := json.IntField set_ResultID |}).
    change (json.find_field WebhookPayload_fields "serverId")
      with (Some {| json.name := "serverId";
                    json.setter := json.IntField set_ServerID |}).
    cbv iota. unfold json.store. cbn [json.setter json.name].
    rewrite (ParseInt_Itoa m Hm), (ParseInt_Itoa n Hn). reflexivity. }
  split; [exact Hd|].
  rewrite webhookHandler_effects. rewrite Hd.
  cbn [negb http.Method http.Body post io.failure fst snd].
  change (negb (http.MethodPost =? http.MethodPost)%string) with false.
  cbv iota zeta. split; [reflexivity|]. simpl. tauto.
Qed.

Lemma integers_round_trip_witness :
  decoded (post (int_body 123 (-9223372036854775808)))
  = (set_ServerID (-9223372036854775808)
       (set_ResultID 123 WebhookPayload_zero), None).
Proof.
  refine (proj1 (integers_round_trip 123 (-9223372036854775808) _ _));
    unfold in_int64; lia.
Defined.
